(** * Smart learner agent: orchestration core

    A shallow embedding of the tutoring workflow of
    [backend/workflows/teaching_workflow.py], of the rule-based tools of
    [backend/agents/tools/knowledge_assessor_tools.py] and
    [backend/agents/tools/mnemonic_generator_tools.py], and of the
    reasoning-action cycle of
    [backend/agents/react/knowledge_assessor_agent.py] with
    [backend/agents/react/tool_executor.py].

    Conventions.
    - A Python [str] whose characters are inspected ([len], [strip], [in],
      [re]) is a list of Unicode code points, [pystr].  Fixed labels and
      messages that are only compared or concatenated are Rocq strings
      holding the UTF-8 bytes of the source literal.
    - A Python exception is a value of [exn]; fallible code returns
      [exn + A].
    - Calls that leave the process (the language model, the five agents, the
      clock) are answered by an environment [Env]; every call is appended to
      a log, so that "this stage called no agent" is a statement about the
      log. *)

From Stdlib Require Import ZArith NArith QArith Qminmax List String Ascii Bool Lia.
From stdpp Require Import base gmap strings list.
Import ListNotations.

Local Open Scope list_scope.

(* ===================================================================== *)
(** ** Python strings *)
(* ===================================================================== *)

Module PyStr.

(** A [str] is a sequence of code points. *)
Definition pystr := list N.

(** ASCII literals of the source, written as Rocq strings. *)
Definition of_ascii (s : string) : pystr :=
  List.map N_of_ascii (list_ascii_of_string s).

(** [len(s)]. *)
Definition len (s : pystr) : nat := length s.

Fixpoint starts_with (p s : pystr) : bool :=
  match p, s with
  | [], _ => true
  | _ :: _, [] => false
  | a :: p', b :: s' => (a =? b)%N && starts_with p' s'
  end.

(** [sub in s]: [sub] occurs in [s] as a contiguous substring. *)
Fixpoint contains (sub s : pystr) : bool :=
  starts_with sub s ||
  match s with
  | [] => false
  | _ :: s' => contains sub s'
  end.

(** [any(k in s for k in keywords)]. *)
Definition any_in (keywords : list pystr) (s : pystr) : bool :=
  existsb (fun k => contains k s) keywords.

(** [str.isspace] on one code point: the white space of CPython
    ([_PyUnicode_IsWhitespace]). *)
Definition isspace (c : N) : bool :=
  ((0x09 <=? c) && (c <=? 0x0D) || (0x1C <=? c) && (c <=? 0x20)
   || (c =? 0x85) || (c =? 0xA0) || (c =? 0x1680)
   || (0x2000 <=? c) && (c <=? 0x200A)
   || (c =? 0x2028) || (c =? 0x2029) || (c =? 0x202F)
   || (c =? 0x205F) || (c =? 0x3000))%N.

Fixpoint lstrip (s : pystr) : pystr :=
  match s with
  | [] => []
  | c :: s' => if isspace c then lstrip s' else s
  end.

Definition rstrip (s : pystr) : pystr := rev (lstrip (rev s)).

(** [s.strip()]. *)
Definition strip (s : pystr) : pystr := rstrip (lstrip s).

(** ASCII lower-casing.  [str.lower] is only used to compare the result
    with the ASCII words learn, practice, progress and review; the one
    non-ASCII code point whose lower case is an ASCII letter is the Kelvin
    sign (k), which occurs in none of them. *)
Definition lower_cp (c : N) : N :=
  if ((0x41 <=? c) && (c <=? 0x5A))%N then (c + 0x20)%N else c.

Definition lower (s : pystr) : pystr := List.map lower_cp s.

Fixpoint eqb (a b : pystr) : bool :=
  match a, b with
  | [], [] => true
  | x :: a', y :: b' => (x =? y)%N && eqb a' b'
  | _, _ => false
  end.

(** The class [\d] of [re] on [str] patterns: the decimal digits of
    Unicode (general category Nd).  In ASCII these are 0-9; outside ASCII
    the class is the one of the runtime's Unicode tables, [nd]. *)
Definition re_digit (nd : N -> bool) (c : N) : bool :=
  ((0x30 <=? c) && (c <=? 0x39) || (0x80 <=? c) && nd c)%N.

(** [re.search(r"\d", s)] finds a match. *)
Definition search_digit (nd : N -> bool) (s : pystr) : bool :=
  existsb (re_digit nd) s.

(** [len(re.findall(r'\d+', s))]: the number of maximal runs of digits.
    [inrun] tells whether the previous code point was a digit. *)
Fixpoint count_digit_runs (nd : N -> bool) (inrun : bool) (s : pystr) : nat :=
  match s with
  | [] => 0
  | c :: s' =>
      if re_digit nd c
      then (if inrun then 0 else 1) + count_digit_runs nd true s'
      else count_digit_runs nd false s'
  end.

End PyStr.

Export PyStr.

(** Python exceptions caught by [except Exception]; [str(e)] is the
    message. *)
Inductive exn : Type := Exn (msg : string).

Definition exn_str (e : exn) : string := match e with Exn m => m end.

(* ===================================================================== *)
(** ** Enumerations of the session state ([backend/workflows/state.py]) *)
(* ===================================================================== *)

Inductive Understanding : Type :=
  fully_understood | partially_understood | not_understood.

Inductive Confidence : Type := low | medium | medium_high | high.

Inductive BaselineLevel : Type := beginner | intermediate | advanced.

Inductive Intent : Type := learn | practice | progress | review | other.

(* ===================================================================== *)
(** ** Knowledge assessor tools *)
(* ===================================================================== *)

Module AssessorTools.

(** The module text of [knowledge_assessor_tools.py] defines
    [assess_understanding_level] and [decide_next_action] several times;
    the last definitions (the ones bound when the module is imported) are
    embedded here. *)

Record Assessment : Type := {
  assessment_result : Understanding;
  confidence_level : Confidence;
  assessment_details : string
}.

(** ["不知道", "不理解", "不懂", "不清楚", "没听懂"] *)
Definition negative_keywords : list pystr :=
  [ [0x4E0D; 0x77E5; 0x9053]; [0x4E0D; 0x7406; 0x89E3]; [0x4E0D; 0x61C2];
    [0x4E0D; 0x6E05; 0x695A]; [0x6CA1; 0x542C; 0x61C2] ]%N.

(** [len([kp for kp in key_points_understood
          if any(exp in kp for exp in expected_key_points)])] *)
Definition covered (key_points_understood expected_key_points : list pystr) : nat :=
  length (List.filter
            (fun kp => existsb (fun e => contains e kp) expected_key_points)
            key_points_understood).

(** Step 3 of the source.  The quotients are floats in the source and
    exact rationals here; the comparisons with 0.3, 0.5, 0.8 and 0.9 below
    agree with the float ones as long as the lists have fewer than 2^50
    elements (a quotient of two such integers is either equal to the
    threshold or further from it than half a unit in the last place). *)
Definition coverage (key_points_understood expected_key_points : list pystr) : Q :=
  match expected_key_points with
  | [] => Qmin (Z.of_nat (length key_points_understood) # 3) 1
  | _ :: _ =>
      Z.of_nat (covered key_points_understood expected_key_points)
        # Pos.of_nat (length expected_key_points)
  end.

Definition assess_understanding_level
    (key_points_understood misunderstandings expected_key_points : list pystr)
    (learner_response : pystr) : Assessment :=
  if (length (strip learner_response) <? 10)%nat then
    {| assessment_result := not_understood;
       confidence_level := low;
       assessment_details := "回答过于简短，无法判断理解程度" |}
  else if any_in negative_keywords learner_response then
    {| assessment_result := not_understood;
       confidence_level := low;
       assessment_details := "学习者明确表示不理解" |}
  else
    let coverage := coverage key_points_understood expected_key_points in
    let has_serious_misunderstanding := (2 <=? length misunderstandings)%nat in
    let has_minor_misunderstanding := (length misunderstandings =? 1)%nat in
    if Qle_bool (8 # 10) coverage && negb has_serious_misunderstanding then
      {| assessment_result := fully_understood;
         confidence_level :=
           if Qle_bool (9 # 10) coverage then high else medium_high;
         assessment_details := "学习者充分理解了核心概念" |}
    else if Qle_bool (5 # 10) coverage
            || Qle_bool (3 # 10) coverage && negb has_serious_misunderstanding then
      {| assessment_result := partially_understood;
         confidence_level :=
           if has_minor_misunderstanding then medium else medium_high;
         assessment_details := "学习者理解了主要概念，但有部分细节不清楚" |}
    else
      {| assessment_result := not_understood;
         confidence_level :=
           if has_serious_misunderstanding then low else medium;
         assessment_details := "学习者对概念的理解不足，需要重新讲解" |}.

(** [decide_next_action]; [assessment_result] is any string in the
    source, [None] stands for a string that is none of the three
    results. *)
Definition decide_next_action
    (assessment_result : option Understanding) (retry_count max_retries : Z)
    : string :=
  match assessment_result with
  | Some fully_understood => "continue"
  | Some partially_understood => "adaptive_followup"
  | Some not_understood =>
      if (retry_count <? max_retries)%Z then "retry" else "record_gap"
  | None => "continue"
  end.

End AssessorTools.

(* ===================================================================== *)
(** ** Mnemonic generator tools *)
(* ===================================================================== *)

Module MnemonicTools.

(** Values stored in a feature dictionary. *)
Inductive FeatureValue : Type :=
| FInt (n : Z)
| FBool (b : bool)
| FStr (s : string).

(** Python truthiness of a value, and of a missing key ([None]). *)
Definition truthy (v : option FeatureValue) : bool :=
  match v with
  | None => false
  | Some (FInt n) => negb (n =? 0)%Z
  | Some (FBool b) => b
  | Some (FStr s) => negb (String.eqb s "")
  end.

Section Features.
Variable nd : N -> bool.

(** [analyze_concept_features]: the dictionary it returns.
    "vs" and "对比" are the comparison markers. *)
Definition analyze_concept_features (concept_name explanation : pystr)
    : gmap string FeatureValue :=
  let numbers := count_digit_runs nd false explanation in
  <["formulas_count" := FInt (Z.of_nat numbers)]>
  (<["has_comparison" :=
       FBool (contains (of_ascii "vs") explanation
              || contains [0x5BF9; 0x6BD4]%N explanation)]>
  (<["abstraction_level" := FStr "medium"]>
  (<["structure_type" :=
       FStr (if (0 <? numbers)%nat then "formula" else "relationship")]> ∅))).
End Features.

(** [features.get("formulas_count", 0) >= 3].  Comparing a string with
    an integer raises [TypeError]. *)
Definition formulas_ge_3 (features : gmap string FeatureValue) : exn + bool :=
  match features !! "formulas_count" with
  | None => inr false
  | Some (FInt n) => inr (3 <=? n)%Z
  | Some (FBool b) => inr false
  | Some (FStr _) =>
      inl (Exn "'>=' not supported between instances of 'str' and 'int'")
  end.

(** [features.get("abstraction_level") == "high"]. *)
Definition abstraction_high (features : gmap string FeatureValue) : bool :=
  match features !! "abstraction_level" with
  | Some (FStr s) => String.eqb s "high"
  | _ => false
  end.

(** [select_mnemonic_strategy]. *)
Definition select_mnemonic_strategy (features : gmap string FeatureValue)
    : exn + list string :=
  match formulas_ge_3 features with
  | inl e => inl e
  | inr many =>
      let strategies := [] in
      let strategies := if many then strategies ++ ["acronym"] else strategies in
      let strategies :=
        if truthy (features !! "has_comparison")
        then strategies ++ ["comparison"] else strategies in
      let strategies :=
        if abstraction_high features
        then strategies ++ ["analogy"] else strategies in
      inr (match strategies with [] => ["acronym"] | _ :: _ => strategies end)
  end.

End MnemonicTools.

(* ===================================================================== *)
(** ** The teaching workflow ([backend/workflows/teaching_workflow.py]) *)
(* ===================================================================== *)

Module Workflow.

Definition UUID := N.

(** A dictionary produced by an agent and only passed on by the
    workflow. *)
Abbreviation pydict := (gmap string pystr).

(** Truthiness of an optional string, of a dictionary entry and of an
    optional dictionary. *)
Definition nonempty (s : option pystr) : bool :=
  match s with
  | Some (_ :: _) => true
  | _ => false
  end.

Definition dict_truthy (d : option pydict) : bool :=
  match d with
  | Some m => negb (bool_decide (m = ∅))
  | None => false
  end.

(** [x or ""]. *)
Definition or_empty (s : option pystr) : pystr :=
  match s with
  | Some (c :: r) => c :: r
  | _ => []
  end.

Record ComprehensionQuestion : Type := {
  cq_question_text : pystr;
  expected_key_points : option (list pystr)
}.

Record TeachingState : Type := {
  session_id : option UUID;
  learner_id : UUID;
  goal_id : UUID;
  tenant_id : UUID;
  current_topic_id : option UUID;
  question_text : option pystr;
  initial_understanding : option pystr;
  learner_name : option pystr;
  learner_preferences : option pydict;
  mastered_topics : list UUID;
  knowledge_gaps : list pydict;
  retrieved_concepts : list pydict;
  needs_validation : bool;
  validation_items : list pystr;
  validation_result : option pydict;
  verified_sources : list pydict;
  skip_validation : bool;
  baseline_level : option BaselineLevel;
  baseline_assessment : option pystr;
  explanation : option pystr;
  teaching_method : string;
  teaching_mode_id : option UUID;
  available_teaching_modes : list string;
  needs_mnemonic : bool;
  mnemonic_strategy : option string;
  generated_mnemonic : option pydict;
  mnemonic_devices : list pydict;
  recommended_strategy : option string;
  skip_mnemonic : bool;
  comprehension_questions : list ComprehensionQuestion;
  learner_response : option pystr;
  assessment_result : option Understanding;
  assessment_details : option string;
  confidence_level : option Confidence;
  key_points_understood : list pystr;
  misunderstandings : list pystr;
  intent : option Intent;
  next_action : option string;
  retry_count : Z;
  max_retries : Z;
  recommended_topics : list pydict;
  review_reminders : list pydict;
  learning_efficiency : option pydict;
  sub_agent_calls : list pydict;
  current_sub_agent : option string;
  sub_agent_results : pydict;
  timestamp : N;
  workflow_stage : option string;
  error_message : option string;
  question_id : option UUID;
  explanation_id : option UUID;
  check_id : option UUID
}.

Definition set_session_id (v : option UUID) (s : TeachingState) : TeachingState :=
  let '(Build_TeachingState f0 f1 f2 f3 f4 f5 f6 f7 f8 f9 f10 f11 f12 f13
    f14 f15 f16 f17 f18 f19 f20 f21 f22 f23 f24 f25 f26 f27 f28 f29 f30 f31
    f32 f33 f34 f35 f36 f37 f38 f39 f40 f41 f42 f43 f44 f45 f46 f47 f48 f49
    f50 f51) := s in
  Build_TeachingState v f1 f2 f3 f4 f5 f6 f7 f8 f9 f10 f11 f12 f13 f14 f15
    f16 f17 f18 f19 f20 f21 f22 f23 f24 f25 f26 f27 f28 f29 f30 f31 f32 f33
    f34 f35 f36 f37 f38 f39 f40 f41 f42 f43 f44 f45 f46 f47 f48 f49 f50 f51.

Definition set_learner_id (v : UUID) (s : TeachingState) : TeachingState :=
  let '(Build_TeachingState f0 f1 f2 f3 f4 f5 f6 f7 f8 f9 f10 f11 f12 f13
    f14 f15 f16 f17 f18 f19 f20 f21 f22 f23 f24 f25 f26 f27 f28 f29 f30 f31
    f32 f33 f34 f35 f36 f37 f38 f39 f40 f41 f42 f43 f44 f45 f46 f47 f48 f49
    f50 f51) := s in
  Build_TeachingState f0 v f2 f3 f4 f5 f6 f7 f8 f9 f10 f11 f12 f13 f14 f15
    f16 f17 f18 f19 f20 f21 f22 f23 f24 f25 f26 f27 f28 f29 f30 f31 f32 f33
    f34 f35 f36 f37 f38 f39 f40 f41 f42 f43 f44 f45 f46 f47 f48 f49 f50 f51.

Definition set_goal_id (v : UUID) (s : TeachingState) : TeachingState :=
  let '(Build_TeachingState f0 f1 f2 f3 f4 f5 f6 f7 f8 f9 f10 f11 f12 f13
    f14 f15 f16 f17 f18 f19 f20 f21 f22 f23 f24 f25 f26 f27 f28 f29 f30 f31
    f32 f33 f34 f35 f36 f37 f38 f39 f40 f41 f42 f43 f44 f45 f46 f47 f48 f49
    f50 f51) := s in
  Build_TeachingState f0 f1 v f3 f4 f5 f6 f7 f8 f9 f10 f11 f12 f13 f14 f15
    f16 f17 f18 f19 f20 f21 f22 f23 f24 f25 f26 f27 f28 f29 f30 f31 f32 f33
    f34 f35 f36 f37 f38 f39 f40 f41 f42 f43 f44 f45 f46 f47 f48 f49 f50 f51.

Definition set_tenant_id (v : UUID) (s : TeachingState) : TeachingState :=
  let '(Build_TeachingState f0 f1 f2 f3 f4 f5 f6 f7 f8 f9 f10 f11 f12 f13
    f14 f15 f16 f17 f18 f19 f20 f21 f22 f23 f24 f25 f26 f27 f28 f29 f30 f31
    f32 f33 f34 f35 f36 f37 f38 f39 f40 f41 f42 f43 f44 f45 f46 f47 f48 f49
    f50 f51) := s in
  Build_TeachingState f0 f1 f2 v f4 f5 f6 f7 f8 f9 f10 f11 f12 f13 f14 f15
    f16 f17 f18 f19 f20 f21 f22 f23 f24 f25 f26 f27 f28 f29 f30 f31 f32 f33
    f34 f35 f36 f37 f38 f39 f40 f41 f42 f43 f44 f45 f46 f47 f48 f49 f50 f51.

Definition set_current_topic_id (v : option UUID) (s : TeachingState) : TeachingState :=
  let '(Build_TeachingState f0 f1 f2 f3 f4 f5 f6 f7 f8 f9 f10 f11 f12 f13
    f14 f15 f16 f17 f18 f19 f20 f21 f22 f23 f24 f25 f26 f27 f28 f29 f30 f31
    f32 f33 f34 f35 f36 f37 f38 f39 f40 f41 f42 f43 f44 f45 f46 f47 f48 f49
    f50 f51) := s in
  Build_TeachingState f0 f1 f2 f3 v f5 f6 f7 f8 f9 f10 f11 f12 f13 f14 f15
    f16 f17 f18 f19 f20 f21 f22 f23 f24 f25 f26 f27 f28 f29 f30 f31 f32 f33
    f34 f35 f36 f37 f38 f39 f40 f41 f42 f43 f44 f45 f46 f47 f48 f49 f50 f51.

Definition set_question_text (v : option pystr) (s : TeachingState) : TeachingState :=
  let '(Build_TeachingState f0 f1 f2 f3 f4 f5 f6 f7 f8 f9 f10 f11 f12 f13
    f14 f15 f16 f17 f18 f19 f20 f21 f22 f23 f24 f25 f26 f27 f28 f29 f30 f31
    f32 f33 f34 f35 f36 f37 f38 f39 f40 f41 f42 f43 f44 f45 f46 f47 f48 f49
    f50 f51) := s in
  Build_TeachingState f0 f1 f2 f3 f4 v f6 f7 f8 f9 f10 f11 f12 f13 f14 f15
    f16 f17 f18 f19 f20 f21 f22 f23 f24 f25 f26 f27 f28 f29 f30 f31 f32 f33
    f34 f35 f36 f37 f38 f39 f40 f41 f42 f43 f44 f45 f46 f47 f48 f49 f50 f51.

Definition set_initial_understanding (v : option pystr) (s : TeachingState) : TeachingState :=
  let '(Build_TeachingState f0 f1 f2 f3 f4 f5 f6 f7 f8 f9 f10 f11 f12 f13
    f14 f15 f16 f17 f18 f19 f20 f21 f22 f23 f24 f25 f26 f27 f28 f29 f30 f31
    f32 f33 f34 f35 f36 f37 f38 f39 f40 f41 f42 f43 f44 f45 f46 f47 f48 f49
    f50 f51) := s in
  Build_TeachingState f0 f1 f2 f3 f4 f5 v f7 f8 f9 f10 f11 f12 f13 f14 f15
    f16 f17 f18 f19 f20 f21 f22 f23 f24 f25 f26 f27 f28 f29 f30 f31 f32 f33
    f34 f35 f36 f37 f38 f39 f40 f41 f42 f43 f44 f45 f46 f47 f48 f49 f50 f51.

Definition set_learner_name (v : option pystr) (s : TeachingState) : TeachingState :=
  let '(Build_TeachingState f0 f1 f2 f3 f4 f5 f6 f7 f8 f9 f10 f11 f12 f13
    f14 f15 f16 f17 f18 f19 f20 f21 f22 f23 f24 f25 f26 f27 f28 f29 f30 f31
    f32 f33 f34 f35 f36 f37 f38 f39 f40 f41 f42 f43 f44 f45 f46 f47 f48 f49
    f50 f51) := s in
  Build_TeachingState f0 f1 f2 f3 f4 f5 f6 v f8 f9 f10 f11 f12 f13 f14 f15
    f16 f17 f18 f19 f20 f21 f22 f23 f24 f25 f26 f27 f28 f29 f30 f31 f32 f33
    f34 f35 f36 f37 f38 f39 f40 f41 f42 f43 f44 f45 f46 f47 f48 f49 f50 f51.

Definition set_learner_preferences (v : option pydict) (s : TeachingState) : TeachingState :=
  let '(Build_TeachingState f0 f1 f2 f3 f4 f5 f6 f7 f8 f9 f10 f11 f12 f13
    f14 f15 f16 f17 f18 f19 f20 f21 f22 f23 f24 f25 f26 f27 f28 f29 f30 f31
    f32 f33 f34 f35 f36 f37 f38 f39 f40 f41 f42 f43 f44 f45 f46 f47 f48 f49
    f50 f51) := s in
  Build_TeachingState f0 f1 f2 f3 f4 f5 f6 f7 v f9 f10 f11 f12 f13 f14 f15
    f16 f17 f18 f19 f20 f21 f22 f23 f24 f25 f26 f27 f28 f29 f30 f31 f32 f33
    f34 f35 f36 f37 f38 f39 f40 f41 f42 f43 f44 f45 f46 f47 f48 f49 f50 f51.

Definition set_mastered_topics (v : list UUID) (s : TeachingState) : TeachingState :=
  let '(Build_TeachingState f0 f1 f2 f3 f4 f5 f6 f7 f8 f9 f10 f11 f12 f13
    f14 f15 f16 f17 f18 f19 f20 f21 f22 f23 f24 f25 f26 f27 f28 f29 f30 f31
    f32 f33 f34 f35 f36 f37 f38 f39 f40 f41 f42 f43 f44 f45 f46 f47 f48 f49
    f50 f51) := s in
  Build_TeachingState f0 f1 f2 f3 f4 f5 f6 f7 f8 v f10 f11 f12 f13 f14 f15
    f16 f17 f18 f19 f20 f21 f22 f23 f24 f25 f26 f27 f28 f29 f30 f31 f32 f33
    f34 f35 f36 f37 f38 f39 f40 f41 f42 f43 f44 f45 f46 f47 f48 f49 f50 f51.

Definition set_knowledge_gaps (v : list pydict) (s : TeachingState) : TeachingState :=
  let '(Build_TeachingState f0 f1 f2 f3 f4 f5 f6 f7 f8 f9 f10 f11 f12 f13
    f14 f15 f16 f17 f18 f19 f20 f21 f22 f23 f24 f25 f26 f27 f28 f29 f30 f31
    f32 f33 f34 f35 f36 f37 f38 f39 f40 f41 f42 f43 f44 f45 f46 f47 f48 f49
    f50 f51) := s in
  Build_TeachingState f0 f1 f2 f3 f4 f5 f6 f7 f8 f9 v f11 f12 f13 f14 f15
    f16 f17 f18 f19 f20 f21 f22 f23 f24 f25 f26 f27 f28 f29 f30 f31 f32 f33
    f34 f35 f36 f37 f38 f39 f40 f41 f42 f43 f44 f45 f46 f47 f48 f49 f50 f51.

Definition set_retrieved_concepts (v : list pydict) (s : TeachingState) : TeachingState :=
  let '(Build_TeachingState f0 f1 f2 f3 f4 f5 f6 f7 f8 f9 f10 f11 f12 f13
    f14 f15 f16 f17 f18 f19 f20 f21 f22 f23 f24 f25 f26 f27 f28 f29 f30 f31
    f32 f33 f34 f35 f36 f37 f38 f39 f40 f41 f42 f43 f44 f45 f46 f47 f48 f49
    f50 f51) := s in
  Build_TeachingState f0 f1 f2 f3 f4 f5 f6 f7 f8 f9 f10 v f12 f13 f14 f15
    f16 f17 f18 f19 f20 f21 f22 f23 f24 f25 f26 f27 f28 f29 f30 f31 f32 f33
    f34 f35 f36 f37 f38 f39 f40 f41 f42 f43 f44 f45 f46 f47 f48 f49 f50 f51.

Definition set_needs_validation (v : bool) (s : TeachingState) : TeachingState :=
  let '(Build_TeachingState f0 f1 f2 f3 f4 f5 f6 f7 f8 f9 f10 f11 f12 f13
    f14 f15 f16 f17 f18 f19 f20 f21 f22 f23 f24 f25 f26 f27 f28 f29 f30 f31
    f32 f33 f34 f35 f36 f37 f38 f39 f40 f41 f42 f43 f44 f45 f46 f47 f48 f49
    f50 f51) := s in
  Build_TeachingState f0 f1 f2 f3 f4 f5 f6 f7 f8 f9 f10 f11 v f13 f14 f15
    f16 f17 f18 f19 f20 f21 f22 f23 f24 f25 f26 f27 f28 f29 f30 f31 f32 f33
    f34 f35 f36 f37 f38 f39 f40 f41 f42 f43 f44 f45 f46 f47 f48 f49 f50 f51.

Definition set_validation_items (v : list pystr) (s : TeachingState) : TeachingState :=
  let '(Build_TeachingState f0 f1 f2 f3 f4 f5 f6 f7 f8 f9 f10 f11 f12 f13
    f14 f15 f16 f17 f18 f19 f20 f21 f22 f23 f24 f25 f26 f27 f28 f29 f30 f31
    f32 f33 f34 f35 f36 f37 f38 f39 f40 f41 f42 f43 f44 f45 f46 f47 f48 f49
    f50 f51) := s in
  Build_TeachingState f0 f1 f2 f3 f4 f5 f6 f7 f8 f9 f10 f11 f12 v f14 f15
    f16 f17 f18 f19 f20 f21 f22 f23 f24 f25 f26 f27 f28 f29 f30 f31 f32 f33
    f34 f35 f36 f37 f38 f39 f40 f41 f42 f43 f44 f45 f46 f47 f48 f49 f50 f51.

Definition set_validation_result (v : option pydict) (s : TeachingState) : TeachingState :=
  let '(Build_TeachingState f0 f1 f2 f3 f4 f5 f6 f7 f8 f9 f10 f11 f12 f13
    f14 f15 f16 f17 f18 f19 f20 f21 f22 f23 f24 f25 f26 f27 f28 f29 f30 f31
    f32 f33 f34 f35 f36 f37 f38 f39 f40 f41 f42 f43 f44 f45 f46 f47 f48 f49
    f50 f51) := s in
  Build_TeachingState f0 f1 f2 f3 f4 f5 f6 f7 f8 f9 f10 f11 f12 f13 v f15
    f16 f17 f18 f19 f20 f21 f22 f23 f24 f25 f26 f27 f28 f29 f30 f31 f32 f33
    f34 f35 f36 f37 f38 f39 f40 f41 f42 f43 f44 f45 f46 f47 f48 f49 f50 f51.

Definition set_verified_sources (v : list pydict) (s : TeachingState) : TeachingState :=
  let '(Build_TeachingState f0 f1 f2 f3 f4 f5 f6 f7 f8 f9 f10 f11 f12 f13
    f14 f15 f16 f17 f18 f19 f20 f21 f22 f23 f24 f25 f26 f27 f28 f29 f30 f31
    f32 f33 f34 f35 f36 f37 f38 f39 f40 f41 f42 f43 f44 f45 f46 f47 f48 f49
    f50 f51) := s in
  Build_TeachingState f0 f1 f2 f3 f4 f5 f6 f7 f8 f9 f10 f11 f12 f13 f14 v
    f16 f17 f18 f19 f20 f21 f22 f23 f24 f25 f26 f27 f28 f29 f30 f31 f32 f33
    f34 f35 f36 f37 f38 f39 f40 f41 f42 f43 f44 f45 f46 f47 f48 f49 f50 f51.

Definition set_skip_validation (v : bool) (s : TeachingState) : TeachingState :=
  let '(Build_TeachingState f0 f1 f2 f3 f4 f5 f6 f7 f8 f9 f10 f11 f12 f13
    f14 f15 f16 f17 f18 f19 f20 f21 f22 f23 f24 f25 f26 f27 f28 f29 f30 f31
    f32 f33 f34 f35 f36 f37 f38 f39 f40 f41 f42 f43 f44 f45 f46 f47 f48 f49
    f50 f51) := s in
  Build_TeachingState f0 f1 f2 f3 f4 f5 f6 f7 f8 f9 f10 f11 f12 f13 f14 f15
    v f17 f18 f19 f20 f21 f22 f23 f24 f25 f26 f27 f28 f29 f30 f31 f32 f33
    f34 f35 f36 f37 f38 f39 f40 f41 f42 f43 f44 f45 f46 f47 f48 f49 f50 f51.

Definition set_baseline_level (v : option BaselineLevel) (s : TeachingState) : TeachingState :=
  let '(Build_TeachingState f0 f1 f2 f3 f4 f5 f6 f7 f8 f9 f10 f11 f12 f13
    f14 f15 f16 f17 f18 f19 f20 f21 f22 f23 f24 f25 f26 f27 f28 f29 f30 f31
    f32 f33 f34 f35 f36 f37 f38 f39 f40 f41 f42 f43 f44 f45 f46 f47 f48 f49
    f50 f51) := s in
  Build_TeachingState f0 f1 f2 f3 f4 f5 f6 f7 f8 f9 f10 f11 f12 f13 f14 f15
    f16 v f18 f19 f20 f21 f22 f23 f24 f25 f26 f27 f28 f29 f30 f31 f32 f33
    f34 f35 f36 f37 f38 f39 f40 f41 f42 f43 f44 f45 f46 f47 f48 f49 f50 f51.

Definition set_baseline_assessment (v : option pystr) (s : TeachingState) : TeachingState :=
  let '(Build_TeachingState f0 f1 f2 f3 f4 f5 f6 f7 f8 f9 f10 f11 f12 f13
    f14 f15 f16 f17 f18 f19 f20 f21 f22 f23 f24 f25 f26 f27 f28 f29 f30 f31
    f32 f33 f34 f35 f36 f37 f38 f39 f40 f41 f42 f43 f44 f45 f46 f47 f48 f49
    f50 f51) := s in
  Build_TeachingState f0 f1 f2 f3 f4 f5 f6 f7 f8 f9 f10 f11 f12 f13 f14 f15
    f16 f17 v f19 f20 f21 f22 f23 f24 f25 f26 f27 f28 f29 f30 f31 f32 f33
    f34 f35 f36 f37 f38 f39 f40 f41 f42 f43 f44 f45 f46 f47 f48 f49 f50 f51.

Definition set_explanation (v : option pystr) (s : TeachingState) : TeachingState :=
  let '(Build_TeachingState f0 f1 f2 f3 f4 f5 f6 f7 f8 f9 f10 f11 f12 f13
    f14 f15 f16 f17 f18 f19 f20 f21 f22 f23 f24 f25 f26 f27 f28 f29 f30 f31
    f32 f33 f34 f35 f36 f37 f38 f39 f40 f41 f42 f43 f44 f45 f46 f47 f48 f49
    f50 f51) := s in
  Build_TeachingState f0 f1 f2 f3 f4 f5 f6 f7 f8 f9 f10 f11 f12 f13 f14 f15
    f16 f17 f18 v f20 f21 f22 f23 f24 f25 f26 f27 f28 f29 f30 f31 f32 f33
    f34 f35 f36 f37 f38 f39 f40 f41 f42 f43 f44 f45 f46 f47 f48 f49 f50 f51.

Definition set_teaching_method (v : string) (s : TeachingState) : TeachingState :=
  let '(Build_TeachingState f0 f1 f2 f3 f4 f5 f6 f7 f8 f9 f10 f11 f12 f13
    f14 f15 f16 f17 f18 f19 f20 f21 f22 f23 f24 f25 f26 f27 f28 f29 f30 f31
    f32 f33 f34 f35 f36 f37 f38 f39 f40 f41 f42 f43 f44 f45 f46 f47 f48 f49
    f50 f51) := s in
  Build_TeachingState f0 f1 f2 f3 f4 f5 f6 f7 f8 f9 f10 f11 f12 f13 f14 f15
    f16 f17 f18 f19 v f21 f22 f23 f24 f25 f26 f27 f28 f29 f30 f31 f32 f33
    f34 f35 f36 f37 f38 f39 f40 f41 f42 f43 f44 f45 f46 f47 f48 f49 f50 f51.

Definition set_teaching_mode_id (v : option UUID) (s : TeachingState) : TeachingState :=
  let '(Build_TeachingState f0 f1 f2 f3 f4 f5 f6 f7 f8 f9 f10 f11 f12 f13
    f14 f15 f16 f17 f18 f19 f20 f21 f22 f23 f24 f25 f26 f27 f28 f29 f30 f31
    f32 f33 f34 f35 f36 f37 f38 f39 f40 f41 f42 f43 f44 f45 f46 f47 f48 f49
    f50 f51) := s in
  Build_TeachingState f0 f1 f2 f3 f4 f5 f6 f7 f8 f9 f10 f11 f12 f13 f14 f15
    f16 f17 f18 f19 f20 v f22 f23 f24 f25 f26 f27 f28 f29 f30 f31 f32 f33
    f34 f35 f36 f37 f38 f39 f40 f41 f42 f43 f44 f45 f46 f47 f48 f49 f50 f51.

Definition set_available_teaching_modes (v : list string) (s : TeachingState) : TeachingState :=
  let '(Build_TeachingState f0 f1 f2 f3 f4 f5 f6 f7 f8 f9 f10 f11 f12 f13
    f14 f15 f16 f17 f18 f19 f20 f21 f22 f23 f24 f25 f26 f27 f28 f29 f30 f31
    f32 f33 f34 f35 f36 f37 f38 f39 f40 f41 f42 f43 f44 f45 f46 f47 f48 f49
    f50 f51) := s in
  Build_TeachingState f0 f1 f2 f3 f4 f5 f6 f7 f8 f9 f10 f11 f12 f13 f14 f15
    f16 f17 f18 f19 f20 f21 v f23 f24 f25 f26 f27 f28 f29 f30 f31 f32 f33
    f34 f35 f36 f37 f38 f39 f40 f41 f42 f43 f44 f45 f46 f47 f48 f49 f50 f51.

Definition set_needs_mnemonic (v : bool) (s : TeachingState) : TeachingState :=
  let '(Build_TeachingState f0 f1 f2 f3 f4 f5 f6 f7 f8 f9 f10 f11 f12 f13
    f14 f15 f16 f17 f18 f19 f20 f21 f22 f23 f24 f25 f26 f27 f28 f29 f30 f31
    f32 f33 f34 f35 f36 f37 f38 f39 f40 f41 f42 f43 f44 f45 f46 f47 f48 f49
    f50 f51) := s in
  Build_TeachingState f0 f1 f2 f3 f4 f5 f6 f7 f8 f9 f10 f11 f12 f13 f14 f15
    f16 f17 f18 f19 f20 f21 f22 v f24 f25 f26 f27 f28 f29 f30 f31 f32 f33
    f34 f35 f36 f37 f38 f39 f40 f41 f42 f43 f44 f45 f46 f47 f48 f49 f50 f51.

Definition set_mnemonic_strategy (v : option string) (s : TeachingState) : TeachingState :=
  let '(Build_TeachingState f0 f1 f2 f3 f4 f5 f6 f7 f8 f9 f10 f11 f12 f13
    f14 f15 f16 f17 f18 f19 f20 f21 f22 f23 f24 f25 f26 f27 f28 f29 f30 f31
    f32 f33 f34 f35 f36 f37 f38 f39 f40 f41 f42 f43 f44 f45 f46 f47 f48 f49
    f50 f51) := s in
  Build_TeachingState f0 f1 f2 f3 f4 f5 f6 f7 f8 f9 f10 f11 f12 f13 f14 f15
    f16 f17 f18 f19 f20 f21 f22 f23 v f25 f26 f27 f28 f29 f30 f31 f32 f33
    f34 f35 f36 f37 f38 f39 f40 f41 f42 f43 f44 f45 f46 f47 f48 f49 f50 f51.

Definition set_generated_mnemonic (v : option pydict) (s : TeachingState) : TeachingState :=
  let '(Build_TeachingState f0 f1 f2 f3 f4 f5 f6 f7 f8 f9 f10 f11 f12 f13
    f14 f15 f16 f17 f18 f19 f20 f21 f22 f23 f24 f25 f26 f27 f28 f29 f30 f31
    f32 f33 f34 f35 f36 f37 f38 f39 f40 f41 f42 f43 f44 f45 f46 f47 f48 f49
    f50 f51) := s in
  Build_TeachingState f0 f1 f2 f3 f4 f5 f6 f7 f8 f9 f10 f11 f12 f13 f14 f15
    f16 f17 f18 f19 f20 f21 f22 f23 f24 v f26 f27 f28 f29 f30 f31 f32 f33
    f34 f35 f36 f37 f38 f39 f40 f41 f42 f43 f44 f45 f46 f47 f48 f49 f50 f51.

Definition set_mnemonic_devices (v : list pydict) (s : TeachingState) : TeachingState :=
  let '(Build_TeachingState f0 f1 f2 f3 f4 f5 f6 f7 f8 f9 f10 f11 f12 f13
    f14 f15 f16 f17 f18 f19 f20 f21 f22 f23 f24 f25 f26 f27 f28 f29 f30 f31
    f32 f33 f34 f35 f36 f37 f38 f39 f40 f41 f42 f43 f44 f45 f46 f47 f48 f49
    f50 f51) := s in
  Build_TeachingState f0 f1 f2 f3 f4 f5 f6 f7 f8 f9 f10 f11 f12 f13 f14 f15
    f16 f17 f18 f19 f20 f21 f22 f23 f24 f25 v f27 f28 f29 f30 f31 f32 f33
    f34 f35 f36 f37 f38 f39 f40 f41 f42 f43 f44 f45 f46 f47 f48 f49 f50 f51.

Definition set_recommended_strategy (v : option string) (s : TeachingState) : TeachingState :=
  let '(Build_TeachingState f0 f1 f2 f3 f4 f5 f6 f7 f8 f9 f10 f11 f12 f13
    f14 f15 f16 f17 f18 f19 f20 f21 f22 f23 f24 f25 f26 f27 f28 f29 f30 f31
    f32 f33 f34 f35 f36 f37 f38 f39 f40 f41 f42 f43 f44 f45 f46 f47 f48 f49
    f50 f51) := s in
  Build_TeachingState f0 f1 f2 f3 f4 f5 f6 f7 f8 f9 f10 f11 f12 f13 f14 f15
    f16 f17 f18 f19 f20 f21 f22 f23 f24 f25 f26 v f28 f29 f30 f31 f32 f33
    f34 f35 f36 f37 f38 f39 f40 f41 f42 f43 f44 f45 f46 f47 f48 f49 f50 f51.

Definition set_skip_mnemonic (v : bool) (s : TeachingState) : TeachingState :=
  let '(Build_TeachingState f0 f1 f2 f3 f4 f5 f6 f7 f8 f9 f10 f11 f12 f13
    f14 f15 f16 f17 f18 f19 f20 f21 f22 f23 f24 f25 f26 f27 f28 f29 f30 f31
    f32 f33 f34 f35 f36 f37 f38 f39 f40 f41 f42 f43 f44 f45 f46 f47 f48 f49
    f50 f51) := s in
  Build_TeachingState f0 f1 f2 f3 f4 f5 f6 f7 f8 f9 f10 f11 f12 f13 f14 f15
    f16 f17 f18 f19 f20 f21 f22 f23 f24 f25 f26 f27 v f29 f30 f31 f32 f33
    f34 f35 f36 f37 f38 f39 f40 f41 f42 f43 f44 f45 f46 f47 f48 f49 f50 f51.

Definition set_comprehension_questions (v : list ComprehensionQuestion) (s : TeachingState) : TeachingState :=
  let '(Build_TeachingState f0 f1 f2 f3 f4 f5 f6 f7 f8 f9 f10 f11 f12 f13
    f14 f15 f16 f17 f18 f19 f20 f21 f22 f23 f24 f25 f26 f27 f28 f29 f30 f31
    f32 f33 f34 f35 f36 f37 f38 f39 f40 f41 f42 f43 f44 f45 f46 f47 f48 f49
    f50 f51) := s in
  Build_TeachingState f0 f1 f2 f3 f4 f5 f6 f7 f8 f9 f10 f11 f12 f13 f14 f15
    f16 f17 f18 f19 f20 f21 f22 f23 f24 f25 f26 f27 f28 v f30 f31 f32 f33
    f34 f35 f36 f37 f38 f39 f40 f41 f42 f43 f44 f45 f46 f47 f48 f49 f50 f51.

Definition set_learner_response (v : option pystr) (s : TeachingState) : TeachingState :=
  let '(Build_TeachingState f0 f1 f2 f3 f4 f5 f6 f7 f8 f9 f10 f11 f12 f13
    f14 f15 f16 f17 f18 f19 f20 f21 f22 f23 f24 f25 f26 f27 f28 f29 f30 f31
    f32 f33 f34 f35 f36 f37 f38 f39 f40 f41 f42 f43 f44 f45 f46 f47 f48 f49
    f50 f51) := s in
  Build_TeachingState f0 f1 f2 f3 f4 f5 f6 f7 f8 f9 f10 f11 f12 f13 f14 f15
    f16 f17 f18 f19 f20 f21 f22 f23 f24 f25 f26 f27 f28 f29 v f31 f32 f33
    f34 f35 f36 f37 f38 f39 f40 f41 f42 f43 f44 f45 f46 f47 f48 f49 f50 f51.

Definition set_assessment_result (v : option Understanding) (s : TeachingState) : TeachingState :=
  let '(Build_TeachingState f0 f1 f2 f3 f4 f5 f6 f7 f8 f9 f10 f11 f12 f13
    f14 f15 f16 f17 f18 f19 f20 f21 f22 f23 f24 f25 f26 f27 f28 f29 f30 f31
    f32 f33 f34 f35 f36 f37 f38 f39 f40 f41 f42 f43 f44 f45 f46 f47 f48 f49
    f50 f51) := s in
  Build_TeachingState f0 f1 f2 f3 f4 f5 f6 f7 f8 f9 f10 f11 f12 f13 f14 f15
    f16 f17 f18 f19 f20 f21 f22 f23 f24 f25 f26 f27 f28 f29 f30 v f32 f33
    f34 f35 f36 f37 f38 f39 f40 f41 f42 f43 f44 f45 f46 f47 f48 f49 f50 f51.

Definition set_assessment_details (v : option string) (s : TeachingState) : TeachingState :=
  let '(Build_TeachingState f0 f1 f2 f3 f4 f5 f6 f7 f8 f9 f10 f11 f12 f13
    f14 f15 f16 f17 f18 f19 f20 f21 f22 f23 f24 f25 f26 f27 f28 f29 f30 f31
    f32 f33 f34 f35 f36 f37 f38 f39 f40 f41 f42 f43 f44 f45 f46 f47 f48 f49
    f50 f51) := s in
  Build_TeachingState f0 f1 f2 f3 f4 f5 f6 f7 f8 f9 f10 f11 f12 f13 f14 f15
    f16 f17 f18 f19 f20 f21 f22 f23 f24 f25 f26 f27 f28 f29 f30 f31 v f33
    f34 f35 f36 f37 f38 f39 f40 f41 f42 f43 f44 f45 f46 f47 f48 f49 f50 f51.

Definition set_confidence_level (v : option Confidence) (s : TeachingState) : TeachingState :=
  let '(Build_TeachingState f0 f1 f2 f3 f4 f5 f6 f7 f8 f9 f10 f11 f12 f13
    f14 f15 f16 f17 f18 f19 f20 f21 f22 f23 f24 f25 f26 f27 f28 f29 f30 f31
    f32 f33 f34 f35 f36 f37 f38 f39 f40 f41 f42 f43 f44 f45 f46 f47 f48 f49
    f50 f51) := s in
  Build_TeachingState f0 f1 f2 f3 f4 f5 f6 f7 f8 f9 f10 f11 f12 f13 f14 f15
    f16 f17 f18 f19 f20 f21 f22 f23 f24 f25 f26 f27 f28 f29 f30 f31 f32 v
    f34 f35 f36 f37 f38 f39 f40 f41 f42 f43 f44 f45 f46 f47 f48 f49 f50 f51.

Definition set_key_points_understood (v : list pystr) (s : TeachingState) : TeachingState :=
  let '(Build_TeachingState f0 f1 f2 f3 f4 f5 f6 f7 f8 f9 f10 f11 f12 f13
    f14 f15 f16 f17 f18 f19 f20 f21 f22 f23 f24 f25 f26 f27 f28 f29 f30 f31
    f32 f33 f34 f35 f36 f37 f38 f39 f40 f41 f42 f43 f44 f45 f46 f47 f48 f49
    f50 f51) := s in
  Build_TeachingState f0 f1 f2 f3 f4 f5 f6 f7 f8 f9 f10 f11 f12 f13 f14 f15
    f16 f17 f18 f19 f20 f21 f22 f23 f24 f25 f26 f27 f28 f29 f30 f31 f32 f33
    v f35 f36 f37 f38 f39 f40 f41 f42 f43 f44 f45 f46 f47 f48 f49 f50 f51.

Definition set_misunderstandings (v : list pystr) (s : TeachingState) : TeachingState :=
  let '(Build_TeachingState f0 f1 f2 f3 f4 f5 f6 f7 f8 f9 f10 f11 f12 f13
    f14 f15 f16 f17 f18 f19 f20 f21 f22 f23 f24 f25 f26 f27 f28 f29 f30 f31
    f32 f33 f34 f35 f36 f37 f38 f39 f40 f41 f42 f43 f44 f45 f46 f47 f48 f49
    f50 f51) := s in
  Build_TeachingState f0 f1 f2 f3 f4 f5 f6 f7 f8 f9 f10 f11 f12 f13 f14 f15
    f16 f17 f18 f19 f20 f21 f22 f23 f24 f25 f26 f27 f28 f29 f30 f31 f32 f33
    f34 v f36 f37 f38 f39 f40 f41 f42 f43 f44 f45 f46 f47 f48 f49 f50 f51.

Definition set_intent (v : option Intent) (s : TeachingState) : TeachingState :=
  let '(Build_TeachingState f0 f1 f2 f3 f4 f5 f6 f7 f8 f9 f10 f11 f12 f13
    f14 f15 f16 f17 f18 f19 f20 f21 f22 f23 f24 f25 f26 f27 f28 f29 f30 f31
    f32 f33 f34 f35 f36 f37 f38 f39 f40 f41 f42 f43 f44 f45 f46 f47 f48 f49
    f50 f51) := s in
  Build_TeachingState f0 f1 f2 f3 f4 f5 f6 f7 f8 f9 f10 f11 f12 f13 f14 f15
    f16 f17 f18 f19 f20 f21 f22 f23 f24 f25 f26 f27 f28 f29 f30 f31 f32 f33
    f34 f35 v f37 f38 f39 f40 f41 f42 f43 f44 f45 f46 f47 f48 f49 f50 f51.

Definition set_next_action (v : option string) (s : TeachingState) : TeachingState :=
  let '(Build_TeachingState f0 f1 f2 f3 f4 f5 f6 f7 f8 f9 f10 f11 f12 f13
    f14 f15 f16 f17 f18 f19 f20 f21 f22 f23 f24 f25 f26 f27 f28 f29 f30 f31
    f32 f33 f34 f35 f36 f37 f38 f39 f40 f41 f42 f43 f44 f45 f46 f47 f48 f49
    f50 f51) := s in
  Build_TeachingState f0 f1 f2 f3 f4 f5 f6 f7 f8 f9 f10 f11 f12 f13 f14 f15
    f16 f17 f18 f19 f20 f21 f22 f23 f24 f25 f26 f27 f28 f29 f30 f31 f32 f33
    f34 f35 f36 v f38 f39 f40 f41 f42 f43 f44 f45 f46 f47 f48 f49 f50 f51.

Definition set_retry_count (v : Z) (s : TeachingState) : TeachingState :=
  let '(Build_TeachingState f0 f1 f2 f3 f4 f5 f6 f7 f8 f9 f10 f11 f12 f13
    f14 f15 f16 f17 f18 f19 f20 f21 f22 f23 f24 f25 f26 f27 f28 f29 f30 f31
    f32 f33 f34 f35 f36 f37 f38 f39 f40 f41 f42 f43 f44 f45 f46 f47 f48 f49
    f50 f51) := s in
  Build_TeachingState f0 f1 f2 f3 f4 f5 f6 f7 f8 f9 f10 f11 f12 f13 f14 f15
    f16 f17 f18 f19 f20 f21 f22 f23 f24 f25 f26 f27 f28 f29 f30 f31 f32 f33
    f34 f35 f36 f37 v f39 f40 f41 f42 f43 f44 f45 f46 f47 f48 f49 f50 f51.

Definition set_max_retries (v : Z) (s : TeachingState) : TeachingState :=
  let '(Build_TeachingState f0 f1 f2 f3 f4 f5 f6 f7 f8 f9 f10 f11 f12 f13
    f14 f15 f16 f17 f18 f19 f20 f21 f22 f23 f24 f25 f26 f27 f28 f29 f30 f31
    f32 f33 f34 f35 f36 f37 f38 f39 f40 f41 f42 f43 f44 f45 f46 f47 f48 f49
    f50 f51) := s in
  Build_TeachingState f0 f1 f2 f3 f4 f5 f6 f7 f8 f9 f10 f11 f12 f13 f14 f15
    f16 f17 f18 f19 f20 f21 f22 f23 f24 f25 f26 f27 f28 f29 f30 f31 f32 f33
    f34 f35 f36 f37 f38 v f40 f41 f42 f43 f44 f45 f46 f47 f48 f49 f50 f51.

Definition set_recommended_topics (v : list pydict) (s : TeachingState) : TeachingState :=
  let '(Build_TeachingState f0 f1 f2 f3 f4 f5 f6 f7 f8 f9 f10 f11 f12 f13
    f14 f15 f16 f17 f18 f19 f20 f21 f22 f23 f24 f25 f26 f27 f28 f29 f30 f31
    f32 f33 f34 f35 f36 f37 f38 f39 f40 f41 f42 f43 f44 f45 f46 f47 f48 f49
    f50 f51) := s in
  Build_TeachingState f0 f1 f2 f3 f4 f5 f6 f7 f8 f9 f10 f11 f12 f13 f14 f15
    f16 f17 f18 f19 f20 f21 f22 f23 f24 f25 f26 f27 f28 f29 f30 f31 f32 f33
    f34 f35 f36 f37 f38 f39 v f41 f42 f43 f44 f45 f46 f47 f48 f49 f50 f51.

Definition set_review_reminders (v : list pydict) (s : TeachingState) : TeachingState :=
  let '(Build_TeachingState f0 f1 f2 f3 f4 f5 f6 f7 f8 f9 f10 f11 f12 f13
    f14 f15 f16 f17 f18 f19 f20 f21 f22 f23 f24 f25 f26 f27 f28 f29 f30 f31
    f32 f33 f34 f35 f36 f37 f38 f39 f40 f41 f42 f43 f44 f45 f46 f47 f48 f49
    f50 f51) := s in
  Build_TeachingState f0 f1 f2 f3 f4 f5 f6 f7 f8 f9 f10 f11 f12 f13 f14 f15
    f16 f17 f18 f19 f20 f21 f22 f23 f24 f25 f26 f27 f28 f29 f30 f31 f32 f33
    f34 f35 f36 f37 f38 f39 f40 v f42 f43 f44 f45 f46 f47 f48 f49 f50 f51.

Definition set_learning_efficiency (v : option pydict) (s : TeachingState) : TeachingState :=
  let '(Build_TeachingState f0 f1 f2 f3 f4 f5 f6 f7 f8 f9 f10 f11 f12 f13
    f14 f15 f16 f17 f18 f19 f20 f21 f22 f23 f24 f25 f26 f27 f28 f29 f30 f31
    f32 f33 f34 f35 f36 f37 f38 f39 f40 f41 f42 f43 f44 f45 f46 f47 f48 f49
    f50 f51) := s in
  Build_TeachingState f0 f1 f2 f3 f4 f5 f6 f7 f8 f9 f10 f11 f12 f13 f14 f15
    f16 f17 f18 f19 f20 f21 f22 f23 f24 f25 f26 f27 f28 f29 f30 f31 f32 f33
    f34 f35 f36 f37 f38 f39 f40 f41 v f43 f44 f45 f46 f47 f48 f49 f50 f51.

Definition set_sub_agent_calls (v : list pydict) (s : TeachingState) : TeachingState :=
  let '(Build_TeachingState f0 f1 f2 f3 f4 f5 f6 f7 f8 f9 f10 f11 f12 f13
    f14 f15 f16 f17 f18 f19 f20 f21 f22 f23 f24 f25 f26 f27 f28 f29 f30 f31
    f32 f33 f34 f35 f36 f37 f38 f39 f40 f41 f42 f43 f44 f45 f46 f47 f48 f49
    f50 f51) := s in
  Build_TeachingState f0 f1 f2 f3 f4 f5 f6 f7 f8 f9 f10 f11 f12 f13 f14 f15
    f16 f17 f18 f19 f20 f21 f22 f23 f24 f25 f26 f27 f28 f29 f30 f31 f32 f33
    f34 f35 f36 f37 f38 f39 f40 f41 f42 v f44 f45 f46 f47 f48 f49 f50 f51.

Definition set_current_sub_agent (v : option string) (s : TeachingState) : TeachingState :=
  let '(Build_TeachingState f0 f1 f2 f3 f4 f5 f6 f7 f8 f9 f10 f11 f12 f13
    f14 f15 f16 f17 f18 f19 f20 f21 f22 f23 f24 f25 f26 f27 f28 f29 f30 f31
    f32 f33 f34 f35 f36 f37 f38 f39 f40 f41 f42 f43 f44 f45 f46 f47 f48 f49
    f50 f51) := s in
  Build_TeachingState f0 f1 f2 f3 f4 f5 f6 f7 f8 f9 f10 f11 f12 f13 f14 f15
    f16 f17 f18 f19 f20 f21 f22 f23 f24 f25 f26 f27 f28 f29 f30 f31 f32 f33
    f34 f35 f36 f37 f38 f39 f40 f41 f42 f43 v f45 f46 f47 f48 f49 f50 f51.

Definition set_sub_agent_results (v : pydict) (s : TeachingState) : TeachingState :=
  let '(Build_TeachingState f0 f1 f2 f3 f4 f5 f6 f7 f8 f9 f10 f11 f12 f13
    f14 f15 f16 f17 f18 f19 f20 f21 f22 f23 f24 f25 f26 f27 f28 f29 f30 f31
    f32 f33 f34 f35 f36 f37 f38 f39 f40 f41 f42 f43 f44 f45 f46 f47 f48 f49
    f50 f51) := s in
  Build_TeachingState f0 f1 f2 f3 f4 f5 f6 f7 f8 f9 f10 f11 f12 f13 f14 f15
    f16 f17 f18 f19 f20 f21 f22 f23 f24 f25 f26 f27 f28 f29 f30 f31 f32 f33
    f34 f35 f36 f37 f38 f39 f40 f41 f42 f43 f44 v f46 f47 f48 f49 f50 f51.

Definition set_timestamp (v : N) (s : TeachingState) : TeachingState :=
  let '(Build_TeachingState f0 f1 f2 f3 f4 f5 f6 f7 f8 f9 f10 f11 f12 f13
    f14 f15 f16 f17 f18 f19 f20 f21 f22 f23 f24 f25 f26 f27 f28 f29 f30 f31
    f32 f33 f34 f35 f36 f37 f38 f39 f40 f41 f42 f43 f44 f45 f46 f47 f48 f49
    f50 f51) := s in
  Build_TeachingState f0 f1 f2 f3 f4 f5 f6 f7 f8 f9 f10 f11 f12 f13 f14 f15
    f16 f17 f18 f19 f20 f21 f22 f23 f24 f25 f26 f27 f28 f29 f30 f31 f32 f33
    f34 f35 f36 f37 f38 f39 f40 f41 f42 f43 f44 f45 v f47 f48 f49 f50 f51.

Definition set_workflow_stage (v : option string) (s : TeachingState) : TeachingState :=
  let '(Build_TeachingState f0 f1 f2 f3 f4 f5 f6 f7 f8 f9 f10 f11 f12 f13
    f14 f15 f16 f17 f18 f19 f20 f21 f22 f23 f24 f25 f26 f27 f28 f29 f30 f31
    f32 f33 f34 f35 f36 f37 f38 f39 f40 f41 f42 f43 f44 f45 f46 f47 f48 f49
    f50 f51) := s in
  Build_TeachingState f0 f1 f2 f3 f4 f5 f6 f7 f8 f9 f10 f11 f12 f13 f14 f15
    f16 f17 f18 f19 f20 f21 f22 f23 f24 f25 f26 f27 f28 f29 f30 f31 f32 f33
    f34 f35 f36 f37 f38 f39 f40 f41 f42 f43 f44 f45 f46 v f48 f49 f50 f51.

Definition set_error_message (v : option string) (s : TeachingState) : TeachingState :=
  let '(Build_TeachingState f0 f1 f2 f3 f4 f5 f6 f7 f8 f9 f10 f11 f12 f13
    f14 f15 f16 f17 f18 f19 f20 f21 f22 f23 f24 f25 f26 f27 f28 f29 f30 f31
    f32 f33 f34 f35 f36 f37 f38 f39 f40 f41 f42 f43 f44 f45 f46 f47 f48 f49
    f50 f51) := s in
  Build_TeachingState f0 f1 f2 f3 f4 f5 f6 f7 f8 f9 f10 f11 f12 f13 f14 f15
    f16 f17 f18 f19 f20 f21 f22 f23 f24 f25 f26 f27 f28 f29 f30 f31 f32 f33
    f34 f35 f36 f37 f38 f39 f40 f41 f42 f43 f44 f45 f46 f47 v f49 f50 f51.

Definition set_question_id (v : option UUID) (s : TeachingState) : TeachingState :=
  let '(Build_TeachingState f0 f1 f2 f3 f4 f5 f6 f7 f8 f9 f10 f11 f12 f13
    f14 f15 f16 f17 f18 f19 f20 f21 f22 f23 f24 f25 f26 f27 f28 f29 f30 f31
    f32 f33 f34 f35 f36 f37 f38 f39 f40 f41 f42 f43 f44 f45 f46 f47 f48 f49
    f50 f51) := s in
  Build_TeachingState f0 f1 f2 f3 f4 f5 f6 f7 f8 f9 f10 f11 f12 f13 f14 f15
    f16 f17 f18 f19 f20 f21 f22 f23 f24 f25 f26 f27 f28 f29 f30 f31 f32 f33
    f34 f35 f36 f37 f38 f39 f40 f41 f42 f43 f44 f45 f46 f47 f48 v f50 f51.

Definition set_explanation_id (v : option UUID) (s : TeachingState) : TeachingState :=
  let '(Build_TeachingState f0 f1 f2 f3 f4 f5 f6 f7 f8 f9 f10 f11 f12 f13
    f14 f15 f16 f17 f18 f19 f20 f21 f22 f23 f24 f25 f26 f27 f28 f29 f30 f31
    f32 f33 f34 f35 f36 f37 f38 f39 f40 f41 f42 f43 f44 f45 f46 f47 f48 f49
    f50 f51) := s in
  Build_TeachingState f0 f1 f2 f3 f4 f5 f6 f7 f8 f9 f10 f11 f12 f13 f14 f15
    f16 f17 f18 f19 f20 f21 f22 f23 f24 f25 f26 f27 f28 f29 f30 f31 f32 f33
    f34 f35 f36 f37 f38 f39 f40 f41 f42 f43 f44 f45 f46 f47 f48 f49 v f51.

Definition set_check_id (v : option UUID) (s : TeachingState) : TeachingState :=
  let '(Build_TeachingState f0 f1 f2 f3 f4 f5 f6 f7 f8 f9 f10 f11 f12 f13
    f14 f15 f16 f17 f18 f19 f20 f21 f22 f23 f24 f25 f26 f27 f28 f29 f30 f31
    f32 f33 f34 f35 f36 f37 f38 f39 f40 f41 f42 f43 f44 f45 f46 f47 f48 f49
    f50 f51) := s in
  Build_TeachingState f0 f1 f2 f3 f4 f5 f6 f7 f8 f9 f10 f11 f12 f13 f14 f15
    f16 f17 f18 f19 f20 f21 f22 f23 f24 f25 f26 f27 f28 f29 f30 f31 f32 f33
    f34 f35 f36 f37 f38 f39 f40 f41 f42 f43 f44 f45 f46 f47 f48 f49 f50 v.

(** An entry of the dictionary a node returns: a key of the state and
    its new value.  The graph runtime accepts every key of the state. *)
Inductive Update : Type :=
| U_session_id (v : option UUID)
| U_learner_id (v : UUID)
| U_goal_id (v : UUID)
| U_tenant_id (v : UUID)
| U_current_topic_id (v : option UUID)
| U_question_text (v : option pystr)
| U_initial_understanding (v : option pystr)
| U_learner_name (v : option pystr)
| U_learner_preferences (v : option pydict)
| U_mastered_topics (v : list UUID)
| U_knowledge_gaps (v : list pydict)
| U_retrieved_concepts (v : list pydict)
| U_needs_validation (v : bool)
| U_validation_items (v : list pystr)
| U_validation_result (v : option pydict)
| U_verified_sources (v : list pydict)
| U_skip_validation (v : bool)
| U_baseline_level (v : option BaselineLevel)
| U_baseline_assessment (v : option pystr)
| U_explanation (v : option pystr)
| U_teaching_method (v : string)
| U_teaching_mode_id (v : option UUID)
| U_available_teaching_modes (v : list string)
| U_needs_mnemonic (v : bool)
| U_mnemonic_strategy (v : option string)
| U_generated_mnemonic (v : option pydict)
| U_mnemonic_devices (v : list pydict)
| U_recommended_strategy (v : option string)
| U_skip_mnemonic (v : bool)
| U_comprehension_questions (v : list ComprehensionQuestion)
| U_learner_response (v : option pystr)
| U_assessment_result (v : option Understanding)
| U_assessment_details (v : option string)
| U_confidence_level (v : option Confidence)
| U_key_points_understood (v : list pystr)
| U_misunderstandings (v : list pystr)
| U_intent (v : option Intent)
| U_next_action (v : option string)
| U_retry_count (v : Z)
| U_max_retries (v : Z)
| U_recommended_topics (v : list pydict)
| U_review_reminders (v : list pydict)
| U_learning_efficiency (v : option pydict)
| U_sub_agent_calls (v : list pydict)
| U_current_sub_agent (v : option string)
| U_sub_agent_results (v : pydict)
| U_timestamp (v : N)
| U_workflow_stage (v : option string)
| U_error_message (v : option string)
| U_question_id (v : option UUID)
| U_explanation_id (v : option UUID)
| U_check_id (v : option UUID).

Definition apply_update (s : TeachingState) (u : Update) : TeachingState :=
  match u with
  | U_session_id v => set_session_id v s
  | U_learner_id v => set_learner_id v s
  | U_goal_id v => set_goal_id v s
  | U_tenant_id v => set_tenant_id v s
  | U_current_topic_id v => set_current_topic_id v s
  | U_question_text v => set_question_text v s
  | U_initial_understanding v => set_initial_understanding v s
  | U_learner_name v => set_learner_name v s
  | U_learner_preferences v => set_learner_preferences v s
  | U_mastered_topics v => set_mastered_topics v s
  | U_knowledge_gaps v => set_knowledge_gaps v s
  | U_retrieved_concepts v => set_retrieved_concepts v s
  | U_needs_validation v => set_needs_validation v s
  | U_validation_items v => set_validation_items v s
  | U_validation_result v => set_validation_result v s
  | U_verified_sources v => set_verified_sources v s
  | U_skip_validation v => set_skip_validation v s
  | U_baseline_level v => set_baseline_level v s
  | U_baseline_assessment v => set_baseline_assessment v s
  | U_explanation v => set_explanation v s
  | U_teaching_method v => set_teaching_method v s
  | U_teaching_mode_id v => set_teaching_mode_id v s
  | U_available_teaching_modes v => set_available_teaching_modes v s
  | U_needs_mnemonic v => set_needs_mnemonic v s
  | U_mnemonic_strategy v => set_mnemonic_strategy v s
  | U_generated_mnemonic v => set_generated_mnemonic v s
  | U_mnemonic_devices v => set_mnemonic_devices v s
  | U_recommended_strategy v => set_recommended_strategy v s
  | U_skip_mnemonic v => set_skip_mnemonic v s
  | U_comprehension_questions v => set_comprehension_questions v s
  | U_learner_response v => set_learner_response v s
  | U_assessment_result v => set_assessment_result v s
  | U_assessment_details v => set_assessment_details v s
  | U_confidence_level v => set_confidence_level v s
  | U_key_points_understood v => set_key_points_understood v s
  | U_misunderstandings v => set_misunderstandings v s
  | U_intent v => set_intent v s
  | U_next_action v => set_next_action v s
  | U_retry_count v => set_retry_count v s
  | U_max_retries v => set_max_retries v s
  | U_recommended_topics v => set_recommended_topics v s
  | U_review_reminders v => set_review_reminders v s
  | U_learning_efficiency v => set_learning_efficiency v s
  | U_sub_agent_calls v => set_sub_agent_calls v s
  | U_current_sub_agent v => set_current_sub_agent v s
  | U_sub_agent_results v => set_sub_agent_results v s
  | U_timestamp v => set_timestamp v s
  | U_workflow_stage v => set_workflow_stage v s
  | U_error_message v => set_error_message v s
  | U_question_id v => set_question_id v s
  | U_explanation_id v => set_explanation_id v s
  | U_check_id v => set_check_id v s
  end.

(** The key an entry writes. *)
Definition key (u : Update) : string :=
  match u with
  | U_session_id _ => "session_id"
  | U_learner_id _ => "learner_id"
  | U_goal_id _ => "goal_id"
  | U_tenant_id _ => "tenant_id"
  | U_current_topic_id _ => "current_topic_id"
  | U_question_text _ => "question_text"
  | U_initial_understanding _ => "initial_understanding"
  | U_learner_name _ => "learner_name"
  | U_learner_preferences _ => "learner_preferences"
  | U_mastered_topics _ => "mastered_topics"
  | U_knowledge_gaps _ => "knowledge_gaps"
  | U_retrieved_concepts _ => "retrieved_concepts"
  | U_needs_validation _ => "needs_validation"
  | U_validation_items _ => "validation_items"
  | U_validation_result _ => "validation_result"
  | U_verified_sources _ => "verified_sources"
  | U_skip_validation _ => "skip_validation"
  | U_baseline_level _ => "baseline_level"
  | U_baseline_assessment _ => "baseline_assessment"
  | U_explanation _ => "explanation"
  | U_teaching_method _ => "teaching_method"
  | U_teaching_mode_id _ => "teaching_mode_id"
  | U_available_teaching_modes _ => "available_teaching_modes"
  | U_needs_mnemonic _ => "needs_mnemonic"
  | U_mnemonic_strategy _ => "mnemonic_strategy"
  | U_generated_mnemonic _ => "generated_mnemonic"
  | U_mnemonic_devices _ => "mnemonic_devices"
  | U_recommended_strategy _ => "recommended_strategy"
  | U_skip_mnemonic _ => "skip_mnemonic"
  | U_comprehension_questions _ => "comprehension_questions"
  | U_learner_response _ => "learner_response"
  | U_assessment_result _ => "assessment_result"
  | U_assessment_details _ => "assessment_details"
  | U_confidence_level _ => "confidence_level"
  | U_key_points_understood _ => "key_points_understood"
  | U_misunderstandings _ => "misunderstandings"
  | U_intent _ => "intent"
  | U_next_action _ => "next_action"
  | U_retry_count _ => "retry_count"
  | U_max_retries _ => "max_retries"
  | U_recommended_topics _ => "recommended_topics"
  | U_review_reminders _ => "review_reminders"
  | U_learning_efficiency _ => "learning_efficiency"
  | U_sub_agent_calls _ => "sub_agent_calls"
  | U_current_sub_agent _ => "current_sub_agent"
  | U_sub_agent_results _ => "sub_agent_results"
  | U_timestamp _ => "timestamp"
  | U_workflow_stage _ => "workflow_stage"
  | U_error_message _ => "error_message"
  | U_question_id _ => "question_id"
  | U_explanation_id _ => "explanation_id"
  | U_check_id _ => "check_id"
  end.

(** [update] is the dictionary a node returns; the graph runtime writes
    each of its entries into the state. *)
Definition merge (s : TeachingState) (update : list Update) : TeachingState :=
  fold_left apply_update update s.

(** *** The outside world *)

(** One constructor per call site of the workflow. *)
Inductive Invocation : Type :=
| datetime_now
| llm_invoke (question : pystr)
| socratic_evaluate_baseline
    (question : pystr) (tenant : UUID) (initial_understanding : option pystr)
| socratic_retrieve_knowledge
    (question : pystr) (tenant : UUID) (current_topic_id : option UUID)
| socratic_generate_explanation
    (question : pystr) (tenant : UUID) (baseline_level : option BaselineLevel)
    (retrieved_concepts : list pydict) (learner_preferences : option pydict)
| socratic_generate_questions
    (question : pystr) (tenant : UUID) (explanation : pystr)
    (baseline_level : option BaselineLevel)
| socratic_adaptive_followup
    (question : pystr) (tenant : UUID)
    (previous_explanation learner_response : pystr)
    (misunderstandings : list pystr)
| assessor_assess_understanding
    (question explanation learner_response : pystr)
    (expected_key_points : list pystr) (retry_count max_retries : Z)
| assessor_recommend_next_action
    (question explanation learner_response : pystr)
    (assessment_result : option Understanding) (retry_count max_retries : Z)
| progress_tracker (task_type : string) (learner tenant : UUID)
| validator_validate_content
    (explanation concept_name : pystr) (tenant : UUID)
    (concept_id : option UUID)
| mnemonic_generate_mnemonic
    (concept_name explanation : pystr) (tenant : UUID)
    (concept_id : option UUID).

(** The final state of an agent run, [result.get("state", {})]: the keys
    the workflow reads.  [None] is a key that is missing or holds
    [None]. *)
Record AgentState : Type := {
  s_baseline_level : option BaselineLevel;
  s_baseline_assessment : option pystr;
  s_retrieved_concepts : option (list pydict);
  s_validation_result : option pydict;
  s_verification_sources : option (list pydict);
  s_explanation : option pystr;
  s_generated_mnemonic : option pydict;
  s_recommended_strategies : option (list string);
  s_comprehension_questions : option (list ComprehensionQuestion);
  s_assessment_result : option Understanding;
  s_confidence_level : option Confidence;
  s_assessment_details : option string;
  s_key_points_understood : option (list pystr);
  s_misunderstandings : option (list pystr);
  s_next_action : option string;
  s_knowledge_gaps : option (list pydict);
  s_efficiency_metrics : option pydict;
  s_review_recommendations : option (list pydict)
}.

(** The environment answers the [k]-th event of a run.  An agent or the
    language model may raise; the clock does not. *)
Record Env : Type := {
  env_now : nat -> N;
  env_llm : nat -> pystr -> exn + option pystr;
  env_agent : nat -> Invocation -> exn + AgentState
}.

(** What a run did, in order: the nodes it entered and the calls it
    made. *)
Inductive Event : Type :=
| Enter (node : string)
| Invoke (i : Invocation).

(** Computations that may raise and that log their events. *)
Definition M (A : Type) : Type := list Event -> (exn + A) * list Event.

Definition ret {A} (a : A) : M A := fun log => (inr a, log).

Definition raise {A} (e : exn) : M A := fun log => (inl e, log).

Definition bind {A B} (m : M A) (k : A -> M B) : M B :=
  fun log =>
    match m log with
    | (inl e, log') => (inl e, log')
    | (inr a, log') => k a log'
    end.

(** [try: m except Exception: h]. *)
Definition try_except {A} (m : M A) (h : exn -> M A) : M A :=
  fun log =>
    match m log with
    | (inl e, log') => h e log'
    | (inr a, log') => (inr a, log')
    end.

Declare Scope wf_scope.
Delimit Scope wf_scope with wf.
Notation "x <- m ;; k" := (bind m (fun x => k))
  (at level 100, m at next level, right associativity) : wf_scope.
Local Open Scope wf_scope.

Section WithEnv.
Variable env : Env.
(** The decimal digits of the runtime outside ASCII (see
    [PyStr.re_digit]). *)
Variable nd : N -> bool.

Definition now : M N :=
  fun log => (inr (env_now env (length log)), log ++ [Invoke datetime_now]).

Definition llm (question : pystr) : M (option pystr) :=
  fun log =>
    (env_llm env (length log) question, log ++ [Invoke (llm_invoke question)]).

Definition invoke_agent (i : Invocation) : M AgentState :=
  fun log => (env_agent env (length log) i, log ++ [Invoke i]).

Definition enter (node : string) : M unit :=
  fun log => (inr tt, log ++ [Enter node]).

(** *** Nodes *)

Definition _initialize_node (state : TeachingState) : M (list Update) :=
  t <- now ;;
  ret [U_workflow_stage (Some "initialized"); U_timestamp t].

(** The word the model answered, or [learn]. *)
Definition intent_of_raw (raw : pystr) : Intent :=
  if PyStr.eqb raw (of_ascii "learn") then learn
  else if PyStr.eqb raw (of_ascii "practice") then practice
  else if PyStr.eqb raw (of_ascii "progress") then progress
  else if PyStr.eqb raw (of_ascii "review") then review
  else learn.

Definition _detect_intent_node (state : TeachingState) : M (list Update) :=
  let question := or_empty (question_text state) in
  match question with
  | [] => ret [U_intent (Some learn); U_workflow_stage (Some "intent_detected")]
  | _ :: _ =>
      raw <- try_except
               (content <- llm question ;;
                ret (lower (strip (or_empty content))))
               (fun _ => ret (of_ascii "learn")) ;;
      ret [U_intent (Some (intent_of_raw raw));
           U_workflow_stage (Some "intent_detected")]
  end.

Definition _route_by_intent (state : TeachingState) : string :=
  match intent state with
  | None | Some learn => "learn"
  | Some practice => "practice"
  | Some progress => "progress"
  | Some review => "review"
  | Some other => "other"
  end.

Definition _evaluate_baseline_node (state : TeachingState) : M (list Update) :=
  s <- invoke_agent
         (socratic_evaluate_baseline (or_empty (question_text state))
            (tenant_id state) (initial_understanding state)) ;;
  ret [U_baseline_level (s_baseline_level s);
       U_baseline_assessment (s_baseline_assessment s);
       U_workflow_stage (Some "baseline_evaluated")].

Definition _check_needs_validation (state : TeachingState)
    (concepts : list pydict) : bool :=
  existsb (fun concept =>
             nonempty (concept !! "formulas") || nonempty (concept !! "rules"))
          concepts.

Definition _retrieve_knowledge_node (state : TeachingState) : M (list Update) :=
  s <- invoke_agent
         (socratic_retrieve_knowledge (or_empty (question_text state))
            (tenant_id state) (current_topic_id state)) ;;
  let concepts := default [] (s_retrieved_concepts s) in
  let needs_validation := _check_needs_validation state concepts in
  ret [U_retrieved_concepts concepts;
       U_needs_validation needs_validation;
       U_workflow_stage (Some "knowledge_retrieved")].

Definition _validate_content_node (state : TeachingState) : M (list Update) :=
  if skip_validation state || negb (nonempty (explanation state)) then
    ret [U_workflow_stage (Some "validation_skipped")]
  else
    s <- invoke_agent
           (validator_validate_content (or_empty (explanation state))
              (or_empty (question_text state)) (tenant_id state)
              (current_topic_id state)) ;;
    ret [U_validation_result (s_validation_result s);
         U_verified_sources (default [] (s_verification_sources s));
         U_workflow_stage (Some "content_validated")].

Definition _generate_explanation_node (state : TeachingState) : M (list Update) :=
  s <- invoke_agent
         (socratic_generate_explanation (or_empty (question_text state))
            (tenant_id state) (baseline_level state)
            (retrieved_concepts state) (learner_preferences state)) ;;
  ret [U_explanation (Some (default [] (s_explanation s)));
       U_workflow_stage (Some "explanation_generated")].

Definition is_fully_understood (r : option Understanding) : bool :=
  match r with Some fully_understood => true | _ => false end.

Definition is_not_understood (r : option Understanding) : bool :=
  match r with Some not_understood => true | _ => false end.

Definition _generate_mnemonic_node (state : TeachingState) : M (list Update) :=
  if skip_mnemonic state || is_fully_understood (assessment_result state) then
    ret [U_workflow_stage (Some "mnemonic_skipped")]
  else
    s <- invoke_agent
           (mnemonic_generate_mnemonic (or_empty (question_text state))
              (or_empty (explanation state)) (tenant_id state)
              (current_topic_id state)) ;;
    let generated := s_generated_mnemonic s in
    let recommended_strategies := default [] (s_recommended_strategies s) in
    let devices := mnemonic_devices state in
    let devices :=
      match generated with
      | Some g => if dict_truthy generated then devices ++ [g] else devices
      | None => devices
      end in
    ret [U_generated_mnemonic generated;
         U_recommended_strategy (head recommended_strategies);
         U_mnemonic_devices devices;
         U_workflow_stage (Some "mnemonic_generated")].

Definition _create_comprehension_check_node (state : TeachingState)
    : M (list Update) :=
  s <- invoke_agent
         (socratic_generate_questions (or_empty (question_text state))
            (tenant_id state) (or_empty (explanation state))
            (baseline_level state)) ;;
  ret [U_comprehension_questions (default [] (s_comprehension_questions s));
       U_workflow_stage (Some "comprehension_check_created")].

Definition _wait_for_response_node (state : TeachingState) : M (list Update) :=
  ret [U_workflow_stage (Some "waiting_for_response")].

(** The expected key points of all questions, in order; a question
    without points (or with an empty list) contributes nothing. *)
Definition expected_points (qs : list ComprehensionQuestion) : list pystr :=
  flat_map (fun q => default [] (expected_key_points q)) qs.

Definition _assess_understanding_node (state : TeachingState) : M (list Update) :=
  if negb (nonempty (learner_response state)) then
    ret [U_assessment_result (Some not_understood);
         U_workflow_stage (Some "assessment_failed")]
  else
    let expected := expected_points (comprehension_questions state) in
    s_assess <- invoke_agent
                  (assessor_assess_understanding
                     (or_empty (question_text state))
                     (or_empty (explanation state))
                     (or_empty (learner_response state))
                     expected (retry_count state) (max_retries state)) ;;
    s_next <- invoke_agent
                (assessor_recommend_next_action
                   (or_empty (question_text state))
                   (or_empty (explanation state))
                   (or_empty (learner_response state))
                   (s_assessment_result s_assess)
                   (retry_count state) (max_retries state)) ;;
    ret [U_assessment_result (s_assessment_result s_assess);
         U_confidence_level (s_confidence_level s_assess);
         U_assessment_details (s_assessment_details s_assess);
         U_key_points_understood (default [] (s_key_points_understood s_assess));
         U_misunderstandings (default [] (s_misunderstandings s_assess));
         U_next_action (s_next_action s_next);
         U_workflow_stage (Some "understanding_assessed")].

Definition _adaptive_followup_node (state : TeachingState) : M (list Update) :=
  s <- invoke_agent
         (socratic_adaptive_followup (or_empty (question_text state))
            (tenant_id state) (or_empty (explanation state))
            (or_empty (learner_response state)) (misunderstandings state)) ;;
  ret [U_explanation
         (match s_explanation s with
          | Some e => Some e
          | None => explanation state
          end);
       U_workflow_stage (Some "followup_generated")].

Definition _update_progress_node (state : TeachingState) : M (list Update) :=
  if negb (is_fully_understood (assessment_result state)) then
    ret [U_workflow_stage (Some "progress_skipped")]
  else
    s <- invoke_agent
           (progress_tracker "track_progress" (learner_id state)
              (tenant_id state)) ;;
    ret [U_knowledge_gaps (default [] (s_knowledge_gaps s));
         U_workflow_stage (Some "progress_updated")].

Definition _record_gap_node (state : TeachingState) : M (list Update) :=
  ret [U_workflow_stage (Some "gap_recorded")].

Definition _finalize_node (state : TeachingState) : M (list Update) :=
  t <- now ;;
  ret [U_workflow_stage (Some "completed"); U_timestamp t].

Definition _progress_entry_node (state : TeachingState) : M (list Update) :=
  s <- invoke_agent
         (progress_tracker "analyze_efficiency" (learner_id state)
            (tenant_id state)) ;;
  ret [U_learning_efficiency (s_efficiency_metrics s);
       U_workflow_stage (Some "progress_overview_generated")].

Definition _review_entry_node (state : TeachingState) : M (list Update) :=
  s <- invoke_agent
         (progress_tracker "recommend_review" (learner_id state)
            (tenant_id state)) ;;
  ret [U_review_reminders (default [] (s_review_recommendations s));
       U_workflow_stage (Some "review_recommendations_generated")].

Definition _assessment_entry_node (state : TeachingState) : M (list Update) :=
  s <- invoke_agent
         (assessor_assess_understanding
            (or_empty (question_text state))
            (or_empty (explanation state))
            (or_empty (learner_response state))
            [] (retry_count state) (max_retries state)) ;;
  ret [U_assessment_result (s_assessment_result s);
       U_confidence_level (s_confidence_level s);
       U_assessment_details (s_assessment_details s);
       U_workflow_stage (Some "assessment_only_completed")].

Definition _other_entry_node (state : TeachingState) : M (list Update) :=
  ret [U_intent (Some learn); U_workflow_stage (Some "fallback_to_learn")].

(** *** Routing decisions *)

(** ["规则", "公式", "法律", "税率", "限额", "%", "率"] *)
Definition validation_keywords : list pystr :=
  [ [0x89C4; 0x5219]; [0x516C; 0x5F0F]; [0x6CD5; 0x5F8B]; [0x7A0E; 0x7387];
    [0x9650; 0x989D]; [0x25]; [0x7387] ]%N.

Definition _should_validate_content (state : TeachingState) : string :=
  if skip_validation state then "skip"
  else
    let explanation := or_empty (explanation state) in
    match explanation with
    | [] => "skip"
    | _ :: _ =>
        if any_in validation_keywords explanation then "validate"
        else if search_digit nd explanation then "validate"
        else "skip"
    end.

Definition _should_generate_mnemonic (state : TeachingState) : string :=
  if skip_mnemonic state then "skip"
  else
    let explanation := or_empty (explanation state) in
    if is_not_understood (assessment_result state) then "generate"
    else if (300 <? len explanation)%nat then "generate"
    else "skip".

Definition is_partially_understood (r : option Understanding) : bool :=
  match r with Some partially_understood => true | _ => false end.

Definition _route_after_assessment (state : TeachingState) : string :=
  match next_action state with
  | Some (String c r) => String c r
  | _ =>
      if is_fully_understood (assessment_result state) then "continue"
      else if is_partially_understood (assessment_result state)
      then "adaptive_followup"
      else if (retry_count state <? max_retries state)%Z then "retry"
      else "record_gap"
  end.

(** *** The methods of the class *)

(** The node methods of [SocraticTeachingWorkflow], by the name under
    which [_build_workflow] registers them or, for the fifteen whose
    registration is commented out, would register them. *)
Definition node_methods : list (string * (TeachingState -> M (list Update))) :=
  [ ("initialize", _initialize_node);
    ("detect_intent", _detect_intent_node);
    ("evaluate_baseline", _evaluate_baseline_node);
    ("retrieve_knowledge", _retrieve_knowledge_node);
    ("validate_content", _validate_content_node);
    ("generate_explanation", _generate_explanation_node);
    ("generate_mnemonic", _generate_mnemonic_node);
    ("create_comprehension_check", _create_comprehension_check_node);
    ("wait_for_response", _wait_for_response_node);
    ("assess_understanding", _assess_understanding_node);
    ("adaptive_followup", _adaptive_followup_node);
    ("update_progress", _update_progress_node);
    ("record_gap", _record_gap_node);
    ("progress_entry", _progress_entry_node);
    ("review_entry", _review_entry_node);
    ("assessment_entry", _assessment_entry_node);
    ("other_entry", _other_entry_node);
    ("finalize", _finalize_node) ].

End WithEnv.

(** *** The graph library: [StateGraph] *)

Definition END : string := "__end__".

(** A graph under construction: the nodes registered by [add_node], the
    edges of [add_edge] and the conditional edges of
    [add_conditional_edges] in the order of the calls, and the entry
    point. *)
Record StateGraph : Type := {
  sg_nodes : gmap string (TeachingState -> M (list Update));
  sg_edges : list (string * string);
  sg_branches : list (string * ((TeachingState -> string) * gmap string string));
  sg_entry : option string
}.

Definition StateGraph_new : StateGraph :=
  {| sg_nodes := ∅; sg_edges := []; sg_branches := []; sg_entry := None |}.

Definition add_node (name : string) (f : TeachingState -> M (list Update))
    (g : StateGraph) : StateGraph :=
  {| sg_nodes := <[name := f]> (sg_nodes g);
     sg_edges := sg_edges g;
     sg_branches := sg_branches g;
     sg_entry := sg_entry g |}.

Definition set_entry_point (name : string) (g : StateGraph) : StateGraph :=
  {| sg_nodes := sg_nodes g;
     sg_edges := sg_edges g;
     sg_branches := sg_branches g;
     sg_entry := Some name |}.

Definition add_edge (source target : string) (g : StateGraph) : StateGraph :=
  {| sg_nodes := sg_nodes g;
     sg_edges := sg_edges g ++ [(source, target)];
     sg_branches := sg_branches g;
     sg_entry := sg_entry g |}.

Definition add_conditional_edges (source : string)
    (router : TeachingState -> string) (mapping : list (string * string))
    (g : StateGraph) : StateGraph :=
  {| sg_nodes := sg_nodes g;
     sg_edges := sg_edges g;
     sg_branches := sg_branches g ++ [(source, (router, list_to_map mapping))];
     sg_entry := sg_entry g |}.

Definition registered (g : StateGraph) (name : string) : bool :=
  match sg_nodes g !! name with
  | Some _ => true
  | None => false
  end.

(** The nodes at which an edge or a conditional edge starts, and those
    at which one ends. *)
Definition sources (g : StateGraph) : list string :=
  List.map fst (sg_edges g) ++ List.map fst (sg_branches g).

Definition targets (g : StateGraph) : list string :=
  List.map snd (sg_edges g)
  ++ flat_map (fun b => List.map snd (map_to_list (snd (snd b)))) (sg_branches g).

(** The names the edges use for which no node is registered. *)
Definition unknown_sources (g : StateGraph) : list string :=
  List.filter (fun n => negb (registered g n)) (sources g).

Definition unknown_targets (g : StateGraph) : list string :=
  List.filter (fun n => negb (registered g n) && negb (String.eqb n END))
    (targets g).

(** A compiled graph: the object [compile] returns. *)
Inductive CompiledStateGraph : Type :=
| Compiled (g : StateGraph).

(** [compile]: the library validates the graph first and raises
    [ValueError] when an edge starts or ends at a name that is no node, or
    when there is no entry point. *)
Definition compile (g : StateGraph) : exn + CompiledStateGraph :=
  match unknown_sources g with
  | n :: _ => inl (Exn ("Found edge starting at unknown node '" ++ n ++ "'"))
  | [] =>
      match sg_entry g with
      | None => inl (Exn "Graph must have an entrypoint")
      | Some _ =>
          match unknown_targets g with
          | n :: _ =>
              inl (Exn ("Found edge ending at unknown node `" ++ n ++ "`"))
          | [] => inr (Compiled g)
          end
      end
  end.

(** The methods of a compiled graph that this repository calls on one:
    [invoke], and [get_graph] in the five agent modules. *)
Definition compiled_methods : list string := ["invoke"; "get_graph"].

(** Attribute access on a compiled graph. *)
Definition getattr (w : CompiledStateGraph) (name : string) : exn + string :=
  if existsb (String.eqb name) compiled_methods then inr name
  else inl (Exn ("'CompiledStateGraph' object has no attribute '"
                   ++ name ++ "'")).

(** The node that follows [node] in state [state]: the target the
    router of its conditional edge selects, or the target of its edge. *)
Definition next_node (g : StateGraph) (node : string) (state : TeachingState)
    : exn + string :=
  match List.find (fun b => String.eqb (fst b) node) (sg_branches g) with
  | Some (_, (router, mapping)) =>
      match mapping !! router state with
      | Some target => inr target
      | None => inl (Exn ("KeyError: " ++ router state))
      end
  | None =>
      match List.find (fun e => String.eqb (fst e) node) (sg_edges g) with
      | Some (_, target) => inr target
      | None => inl (Exn ("no edge from " ++ node))
      end
  end.

(** How a bounded run ends. *)
Inductive Outcome : Type :=
| Finished (state : TeachingState)
| OutOfFuel (node : string) (state : TeachingState).

(** [invoke] on a compiled graph: run the node, merge its update, follow
    the edge, until [END].  [fuel] bounds the number of nodes run; the
    runtime has such a bound of its own (its recursion limit) and raises
    when it is reached. *)
Fixpoint invoke_from (g : StateGraph) (fuel : nat) (node : string)
    (state : TeachingState) : M Outcome :=
  match fuel with
  | O => ret (OutOfFuel node state)
  | S fuel' =>
      match sg_nodes g !! node with
      | None => raise (Exn ("unknown node " ++ node))
      | Some f =>
          _ <- enter node ;;
          update <- f state ;;
          let state' := merge state update in
          match next_node g node state' with
          | inl e => raise e
          | inr target =>
              if String.eqb target END then ret (Finished state')
              else invoke_from g fuel' target state'
          end
      end
  end.

Definition invoke (w : CompiledStateGraph) (fuel : nat) (state : TeachingState)
    : M Outcome :=
  match w with
  | Compiled g =>
      match sg_entry g with
      | Some node => invoke_from g fuel node state
      | None => raise (Exn "Graph must have an entrypoint")
      end
  end.

(** *** [SocraticTeachingWorkflow] *)

Section WithWorkflow.
Variable env : Env.
Variable nd : N -> bool.

(** The graph [_build_workflow] has built when it calls [compile]: the
    calls of the source in their order.  The calls that register the
    nodes of the learning path and the entry nodes of the other intents
    are comments in the source and are not made. *)
Definition graph : StateGraph :=
  fold_left (fun g call => call g)
    [ add_node "initialize" (_initialize_node env);
      add_node "detect_intent" (_detect_intent_node env);
      add_node "finalize" (_finalize_node env);
      set_entry_point "initialize";
      add_edge "initialize" "detect_intent";
      add_conditional_edges "detect_intent" _route_by_intent
        [ ("learn", "evaluate_baseline");
          ("practice", "assessment_entry");
          ("progress", "progress_entry");
          ("review", "review_entry");
          ("other", "other_entry") ];
      add_edge "evaluate_baseline" "retrieve_knowledge";
      add_conditional_edges "retrieve_knowledge" (_should_validate_content nd)
        [ ("validate", "validate_content");
          ("skip", "generate_explanation") ];
      add_edge "validate_content" "generate_explanation";
      add_conditional_edges "generate_explanation" _should_generate_mnemonic
        [ ("generate", "generate_mnemonic");
          ("skip", "create_comprehension_check") ];
      add_edge "generate_mnemonic" "create_comprehension_check";
      add_edge "create_comprehension_check" "wait_for_response";
      add_edge "wait_for_response" "assess_understanding";
      add_conditional_edges "assess_understanding" _route_after_assessment
        [ ("continue", "update_progress");
          ("adaptive_followup", "adaptive_followup");
          ("retry", "generate_explanation");
          ("record_gap", "record_gap") ];
      add_edge "adaptive_followup" "create_comprehension_check";
      add_edge "update_progress" "finalize";
      add_edge "record_gap" "finalize";
      add_edge "progress_entry" "finalize";
      add_edge "review_entry" "finalize";
      add_edge "assessment_entry" "finalize";
      add_edge "other_entry" "finalize";
      add_edge "finalize" END ]
    StateGraph_new.

(** [_build_workflow]: compile the graph, then print it.  The source
    spells the method of the second step [getgraph]. *)
Definition _build_workflow : exn + CompiledStateGraph :=
  match compile graph with
  | inl e => inl e
  | inr compiled_graph =>
      match getattr compiled_graph "getgraph" with
      | inl e => inl e
      | inr _ => inr compiled_graph
      end
  end.

(** A workflow object: its compiled graph.  (Its agents and its model
    are [env].) *)
Record SocraticTeachingWorkflow : Type := {
  workflow : CompiledStateGraph
}.

(** [__init__].  Creating the agents comes first in the source and is
    not modelled; building the graph is its last step. *)
Definition SocraticTeachingWorkflow_init : exn + SocraticTeachingWorkflow :=
  match _build_workflow with
  | inl e => inl e
  | inr compiled => inr {| workflow := compiled |}
  end.

(** [create_teaching_workflow]. *)
Definition create_teaching_workflow : exn + SocraticTeachingWorkflow :=
  SocraticTeachingWorkflow_init.

(** The state [create_initial_state] builds at time [t]: the arguments,
    and the defaults of [TeachingState]. *)
Definition initial_state (learner goal tenant : UUID)
    (question initial : option pystr) (t : N) : TeachingState :=
      {| session_id := None;
         learner_id := learner;
         goal_id := goal;
         tenant_id := tenant;
         current_topic_id := None;
         question_text := question;
         initial_understanding := initial;
         learner_name := None;
         learner_preferences := None;
         mastered_topics := [];
         knowledge_gaps := [];
         retrieved_concepts := [];
         needs_validation := false;
         validation_items := [];
         validation_result := None;
         verified_sources := [];
         skip_validation := false;
         baseline_level := None;
         baseline_assessment := None;
         explanation := None;
         teaching_method := "socratic";
         teaching_mode_id := None;
         available_teaching_modes := [];
         needs_mnemonic := false;
         mnemonic_strategy := None;
         generated_mnemonic := None;
         mnemonic_devices := [];
         recommended_strategy := None;
         skip_mnemonic := false;
         comprehension_questions := [];
         learner_response := None;
         assessment_result := None;
         assessment_details := None;
         confidence_level := None;
         key_points_understood := [];
         misunderstandings := [];
         intent := None;
         next_action := None;
         retry_count := 0;
         max_retries := 3;
         recommended_topics := [];
         review_reminders := [];
         learning_efficiency := None;
         sub_agent_calls := [];
         current_sub_agent := None;
         sub_agent_results := ∅;
         timestamp := t;
         workflow_stage := Some "initialized";
         error_message := None;
         question_id := None;
         explanation_id := None;
         check_id := None |}.

(** [create_initial_state]. *)
Definition create_initial_state (learner goal tenant : UUID)
    (question initial : option pystr) : M TeachingState :=
  t <- now env ;;
  ret (initial_state learner goal tenant question initial t).

(** [run], a method: [self] is a workflow object that [__init__] has
    returned. *)
Definition run (self : SocraticTeachingWorkflow) (fuel : nat)
    (learner goal tenant : UUID) (question : pystr) (initial : option pystr)
    : M Outcome :=
  initial_state <- create_initial_state learner goal tenant
                     (Some question) initial ;;
  invoke (workflow self) fuel initial_state.

(** [continue_with_response]. *)
Definition continue_with_response (self : SocraticTeachingWorkflow)
    (fuel : nat) (state : TeachingState) (response : pystr) : M Outcome :=
  invoke (workflow self) fuel (set_learner_response (Some response) state).

(** How [handle_question] of [cli/main.py] starts a session: it creates
    the workflow (outside its [try]) and calls [run] on it. *)
Definition create_and_run (fuel : nat) (learner goal tenant : UUID)
    (question : pystr) : M Outcome :=
  match create_teaching_workflow with
  | inl e => raise e
  | inr workflow => run workflow fuel learner goal tenant question None
  end.

End WithWorkflow.

(** *** Observations on the log of a run *)

(** The nodes a run entered, in order. *)
Definition entered (log : list Event) : list string :=
  flat_map (fun e => match e with Enter node => [node] | Invoke _ => [] end) log.

(** The agent and model calls a run made, in order. *)
Definition invocations (log : list Event) : list Invocation :=
  flat_map (fun e => match e with Invoke i => [i] | Enter _ => [] end) log.

(** *** Conditions on states and updates *)



(** The learner has not answered. *)
Definition no_response (st : TeachingState) : Prop :=
  nonempty (learner_response st) = false.

(** The assessor has recommended no next action. *)
Definition no_recommendation (st : TeachingState) : Prop :=
  next_action st = None \/ next_action st = Some ""%string.

(** The update has no entry for the key. *)
Definition leaves (k : string) (update : list Update) : Prop :=
  Forall (fun u => key u <> k) update.

(** The target a conditional edge of the graph gives for a router result. *)
Definition branch_target (g : StateGraph) (source label : string)
    : option string :=
  match List.find (fun b => String.eqb (fst b) source) (sg_branches g) with
  | Some (_, (_, mapping)) => mapping !! label
  | None => None
  end.

(** An environment whose agents all raise [e]. *)
Definition agents_raising (e : exn) (clock : nat -> N)
    (model : nat -> pystr -> exn + option pystr) : Env :=
  {| env_now := clock; env_llm := model; env_agent := fun _ _ => inl e |}.

End Workflow.

(* ===================================================================== *)
(** ** The reasoning-action cycle
       ([backend/agents/react/knowledge_assessor_agent.py],
        [backend/agents/react/tool_executor.py]) *)
(* ===================================================================== *)

Module ReactCycle.

(** Values exchanged with tools.  [PyRef] is an object that is not
    data, such as the language model handle given to a tool. *)
#[warnings="-register-all"]
Inductive pyobj : Type :=
| PyNone
| PyBool (b : bool)
| PyInt (n : Z)
| PyStr (s : string)
| PyList (l : list pyobj)
| PyDict (d : list (string * pyobj))
| PyRef (name : string).

(** The text of a message: the JSON text of a value, or other text. *)
Inductive Content : Type :=
| Json (v : pyobj)
| Text (s : string).

Fixpoint serializable (v : pyobj) : bool :=
  match v with
  | PyRef _ => false
  | PyList l => forallb serializable l
  | PyDict d => forallb (fun kv => serializable (snd kv)) d
  | _ => true
  end.

(** Truthiness. *)
Definition pyobj_truthy (v : pyobj) : bool :=
  match v with
  | PyNone => false
  | PyBool b => b
  | PyInt n => negb (n =? 0)%Z
  | PyStr s => negb (String.eqb s "")
  | PyList l => match l with [] => false | _ :: _ => true end
  | PyDict d => match d with [] => false | _ :: _ => true end
  | PyRef _ => true
  end.

(** [json.dumps(v, ensure_ascii=False)]. *)
Definition json_dumps (v : pyobj) : exn + Content :=
  if serializable v then inr (Json v)
  else inl (Exn "Object is not JSON serializable").

(** [json.loads(content)].  The text of a failure report starts with a
    character no JSON text starts with. *)
Definition json_loads (c : Content) : exn + pyobj :=
  match c with
  | Json v => inr v
  | Text _ => inl (Exn "Expecting value")
  end.

Record ToolCall : Type := {
  tc_id : string;
  tc_name : string;
  tc_args : gmap string pyobj
}.

Inductive Message : Type :=
| HumanMessage (content : string)
| AIMessage (content : string) (tool_calls : list ToolCall)
| ToolMessage (content : Content) (tool_call_id : string).

(** [getattr(message, "tool_calls", [])]. *)
Definition tool_calls_of (m : Message) : list ToolCall :=
  match m with
  | AIMessage _ calls => calls
  | _ => []
  end.

(** A capability function: [tool.invoke(args)]. *)
Definition Tool : Type := gmap string pyobj -> exn + pyobj.

(** *** [ToolExecutor] *)

(** [__init__]: tools are registered under their name; a tool without a
    name is left out, a later tool replaces an earlier one of the same
    name. *)
Definition ToolExecutor_init (tools : list (string * Tool)) : gmap string Tool :=
  fold_left
    (fun registry nt =>
       if String.eqb (fst nt) "" then registry
       else <[fst nt := snd nt]> registry)
    tools ∅.

(** [invoke]. *)
Definition ToolExecutor_invoke (_tools : gmap string Tool) (tool_call : ToolCall)
    : exn + pyobj :=
  let name := tc_name tool_call in
  let args := tc_args tool_call in
  match _tools !! name with
  | None => inl (Exn ("Unknown tool: " ++ name))
  | Some tool => tool args
  end.

(** *** The agent state *)

Record KnowledgeAssessorState : Type := {
  messages : list Message;
  task_type : string;
  question : string;
  explanation : string;
  learner_response : string;
  expected_key_points : list pyobj;
  comprehension_questions : list pyobj;
  key_points_understood : list pyobj;
  misunderstandings : list pyobj;
  assessment_result : option pyobj;
  confidence_level : option pyobj;
  assessment_details : option pyobj;
  next_action : option string;
  retry_count : Z;
  max_retries : Z;
  next_step : option string;
  result : option (list (string * pyobj));
  error : option string
}.

Definition set_messages (v : list Message) (s : KnowledgeAssessorState)
    : KnowledgeAssessorState :=
  let '(Build_KnowledgeAssessorState _ f1 f2 f3 f4 f5 f6 f7 f8 f9 f10 f11 f12
          f13 f14 f15 f16 f17) := s in
  Build_KnowledgeAssessorState v f1 f2 f3 f4 f5 f6 f7 f8 f9 f10 f11 f12
    f13 f14 f15 f16 f17.

Definition set_next_step (v : option string) (s : KnowledgeAssessorState)
    : KnowledgeAssessorState :=
  let '(Build_KnowledgeAssessorState f0 f1 f2 f3 f4 f5 f6 f7 f8 f9 f10 f11 f12
          f13 f14 _ f16 f17) := s in
  Build_KnowledgeAssessorState f0 f1 f2 f3 f4 f5 f6 f7 f8 f9 f10 f11 f12
    f13 f14 v f16 f17.

(** The output fields [extract_result] writes, together. *)
Definition set_outputs
    (kpu mis : list pyobj) (ar cl ad : option pyobj) (na : option string)
    (res : option (list (string * pyobj))) (err : option string)
    (s : KnowledgeAssessorState) : KnowledgeAssessorState :=
  let '(Build_KnowledgeAssessorState f0 f1 f2 f3 f4 f5 f6 _ _ _ _ _ _
          f13 f14 f15 _ _) := s in
  Build_KnowledgeAssessorState f0 f1 f2 f3 f4 f5 f6 kpu mis ar cl ad na
    f13 f14 f15 res err.

Section Agent.
(** The language model bound to the tools: given the history it
    answers with text and tool calls, or raises. *)
Variable llm_with_tools : list Message -> exn + string * list ToolCall.
(** The tools handed to [ToolExecutor(tools)]. *)
Variable tools : list (string * Tool).
(** Prompt texts (their wording is not modelled). *)
Variable system_message : string -> string.
Variable task_info : KnowledgeAssessorState -> string.

Definition tool_executor : gmap string Tool := ToolExecutor_init tools.

(** [agent_node]. *)
Definition agent_node (state : KnowledgeAssessorState)
    : exn + KnowledgeAssessorState :=
  let messages :=
    match messages state with
    | [] => [HumanMessage (system_message (task_type state));
             HumanMessage (task_info state)]
    | m :: ms => m :: ms
    end in
  match llm_with_tools messages with
  | inl e => inl e
  | inr (text, calls) =>
      inr (set_messages (messages ++ [AIMessage text calls]) state)
  end.

(** [d[k] = v if k not in d]. *)
Definition setdefault (k : string) (v : pyobj) (d : gmap string pyobj)
    : gmap string pyobj :=
  match d !! k with
  | Some _ => d
  | None => <[k := v]> d
  end.

(** The arguments the node fills in from the state before a call. *)
Definition inject_args (state : KnowledgeAssessorState) (tool_call : ToolCall)
    : ToolCall :=
  let tool_name := tc_name tool_call in
  let tool_args := tc_args tool_call in
  let tool_args :=
    if String.eqb tool_name "extract_key_points" then
      <["llm" := PyRef "llm"]> tool_args
    else if String.eqb tool_name "identify_misunderstandings" then
      setdefault "explanation" (PyStr (explanation state))
        (setdefault "expected_key_points"
           (PyList (expected_key_points state)) tool_args)
    else if String.eqb tool_name "assess_understanding_level" then
      setdefault "learner_response" (PyStr (learner_response state)) tool_args
    else if String.eqb tool_name "decide_next_action" then
      setdefault "max_retries" (PyInt (max_retries state))
        (setdefault "retry_count" (PyInt (retry_count state)) tool_args)
    else tool_args in
  {| tc_id := tc_id tool_call; tc_name := tool_name; tc_args := tool_args |}.

(** The body of the loop over tool calls, from [try] to the end of
    [except]: the message appended for one (completed) tool call. *)
Definition execute_tool_call (tool_call : ToolCall) : Message :=
  let attempt :=
    match ToolExecutor_invoke tool_executor tool_call with
    | inl e => inl e
    | inr result => json_dumps result
    end in
  match attempt with
  | inr content => ToolMessage content (tc_id tool_call)
  | inl e =>
      ToolMessage (Text ("工具执行错误: " ++ exn_str e)) (tc_id tool_call)
  end.

(** The history as the node leaves it: the argument dictionaries of the
    last message are the ones the node completed (it writes into the
    dictionaries of the message itself). *)
Definition with_injected (state : KnowledgeAssessorState) (ms : list Message)
    : list Message :=
  match rev ms with
  | AIMessage text calls :: before =>
      rev before ++ [AIMessage text (List.map (inject_args state) calls)]
  | _ => ms
  end.

(** [tool_node].  It runs after [agent_node], on a history that is
    not empty. *)
Definition tool_node (state : KnowledgeAssessorState) : KnowledgeAssessorState :=
  let messages := messages state in
  let tool_calls :=
    match last messages with
    | Some last_message => tool_calls_of last_message
    | None => []
    end in
  match tool_calls with
  | [] => set_next_step (Some "end") state
  | _ :: _ =>
      let tool_messages :=
        List.map (fun tc => execute_tool_call (inject_args state tc))
                 tool_calls in
      set_next_step (Some "agent")
        (set_messages (with_injected state messages ++ tool_messages) state)
  end.

(** [should_continue]. *)
Definition should_continue (state : KnowledgeAssessorState) : string :=
  match last (messages state) with
  | Some (AIMessage _ (_ :: _)) => "tools"
  | _ => "end"
  end.

(** The values of the tool messages that parse as JSON, in order. *)
Definition tool_results (ms : list Message) : list pyobj :=
  flat_map
    (fun msg =>
       match msg with
       | ToolMessage content _ =>
           match json_loads content with
           | inr v => [v]
           | inl _ => []
           end
       | _ => []
       end) ms.

Definition assoc (k : string) (d : list (string * pyobj)) : option pyobj :=
  snd <$> List.find (fun kv => String.eqb (fst kv) k) d.

Definition next_actions : list string :=
  ["continue"; "adaptive_followup"; "retry"; "record_gap"].

Definition str_in (s : string) (l : list string) : bool :=
  existsb (String.eqb s) l.

(** The accumulator of the loop over tool results in
    [extract_result]. *)
Record Extracted : Type := {
  x_key_points : list pyobj;
  x_misunderstandings : list pyobj;
  x_assessment_result : option pyobj;
  x_confidence_level : option pyobj;
  x_assessment_details : option pyobj;
  x_next_action : option string
}.

Definition extract_step (x : Extracted) (tool_result : pyobj) : Extracted :=
  match tool_result with
  | PyList l =>
      match x_key_points x, x_misunderstandings x with
      | [], _ =>
          {| x_key_points := l;
             x_misunderstandings := x_misunderstandings x;
             x_assessment_result := x_assessment_result x;
             x_confidence_level := x_confidence_level x;
             x_assessment_details := x_assessment_details x;
             x_next_action := x_next_action x |}
      | _ :: _, [] =>
          {| x_key_points := x_key_points x;
             x_misunderstandings := l;
             x_assessment_result := x_assessment_result x;
             x_confidence_level := x_confidence_level x;
             x_assessment_details := x_assessment_details x;
             x_next_action := x_next_action x |}
      | _ :: _, _ :: _ => x
      end
  | PyDict d =>
      match assoc "assessment_result" d with
      | Some r =>
          {| x_key_points := x_key_points x;
             x_misunderstandings := x_misunderstandings x;
             x_assessment_result := Some r;
             x_confidence_level := assoc "confidence_level" d;
             x_assessment_details := assoc "assessment_details" d;
             x_next_action := x_next_action x |}
      | None =>
          match assoc "next_action" d with
          | Some (PyStr a) =>
              {| x_key_points := x_key_points x;
                 x_misunderstandings := x_misunderstandings x;
                 x_assessment_result := x_assessment_result x;
                 x_confidence_level := x_confidence_level x;
                 x_assessment_details := x_assessment_details x;
                 x_next_action := Some a |}
          | _ => x
          end
      end
  | PyStr s =>
      if str_in s next_actions then
        {| x_key_points := x_key_points x;
           x_misunderstandings := x_misunderstandings x;
           x_assessment_result := x_assessment_result x;
           x_confidence_level := x_confidence_level x;
           x_assessment_details := x_assessment_details x;
           x_next_action := Some s |}
      else x
  | _ => x
  end.

Definition opt_obj (o : option pyobj) : pyobj := default PyNone o.

Definition opt_str (o : option string) : pyobj :=
  match o with Some s => PyStr s | None => PyNone end.

(** [extract_result].  A node returns the keys it sets; the keys a
    branch does not return keep their value. *)
Definition extract_result (state : KnowledgeAssessorState)
    : KnowledgeAssessorState :=
  let x := fold_left extract_step (tool_results (messages state))
             {| x_key_points := []; x_misunderstandings := [];
                x_assessment_result := None; x_confidence_level := None;
                x_assessment_details := None; x_next_action := None |} in
  if String.eqb (task_type state) "assess_understanding" then
    set_outputs (x_key_points x) (x_misunderstandings x)
      (x_assessment_result x) (x_confidence_level x)
      (x_assessment_details x) (next_action state)
      (Some [ ("key_points_understood", PyList (x_key_points x));
              ("misunderstandings", PyList (x_misunderstandings x));
              ("assessment_result", opt_obj (x_assessment_result x));
              ("confidence_level", opt_obj (x_confidence_level x));
              ("assessment_details", opt_obj (x_assessment_details x)) ])
      None state
  else if String.eqb (task_type state) "calibrate_confidence" then
    set_outputs (key_points_understood state) (misunderstandings state)
      (assessment_result state) (x_confidence_level x)
      (assessment_details state) (next_action state)
      (Some (match x_confidence_level x with
             | Some c => if pyobj_truthy c then [("confidence_level", c)] else []
             | None => []
             end))
      None state
  else if String.eqb (task_type state) "recommend_next_action" then
    set_outputs (key_points_understood state) (misunderstandings state)
      (assessment_result state) (confidence_level state)
      (assessment_details state) (x_next_action x)
      (Some [("next_action", opt_str (x_next_action x))])
      None state
  else
    set_outputs (key_points_understood state) (misunderstandings state)
      (assessment_result state) (confidence_level state)
      (assessment_details state) (next_action state)
      (Some []) None state.

(** How a bounded run of the agent graph ends. *)
Inductive Outcome : Type :=
| Finished (state : KnowledgeAssessorState)
| OutOfFuel (state : KnowledgeAssessorState).

(** The compiled graph from the node [agent]: agent, then tools and
    agent again while the model asks for tools, then extract_result.
    [fuel] bounds the number of model calls. *)
Fixpoint cycle (fuel : nat) (state : KnowledgeAssessorState) : exn + Outcome :=
  match fuel with
  | O => inr (OutOfFuel state)
  | S fuel' =>
      match agent_node state with
      | inl e => inl e
      | inr state1 =>
          if String.eqb (should_continue state1) "tools"
          then cycle fuel' (tool_node state1)
          else inr (Finished (extract_result state1))
      end
  end.

(** [invoke_knowledge_assessor]: the initial state. *)
Definition initial_state (task question explanation response : string)
    (expected questions : list pyobj) (result : option pyobj)
    (retries limit : Z) : KnowledgeAssessorState :=
  {| messages := [];
     task_type := task;
     question := question;
     explanation := explanation;
     learner_response := response;
     expected_key_points := expected;
     comprehension_questions := questions;
     key_points_understood := [];
     misunderstandings := [];
     assessment_result := result;
     confidence_level := None;
     assessment_details := None;
     next_action := None;
     retry_count := retries;
     max_retries := limit;
     next_step := None;
     result := None;
     error := None |}.

Definition invoke_knowledge_assessor (fuel : nat)
    (task question explanation response : string)
    (expected questions : list pyobj) (result : option pyobj)
    (retries limit : Z) : exn + Outcome :=
  cycle fuel
    (initial_state task question explanation response expected questions
       result retries limit).

End Agent.

End ReactCycle.

(* ===================================================================== *)
(** ** Confidence calibration
       ([backend/agents/tools/knowledge_assessor_tools.py]) *)
(* ===================================================================== *)

Module AssessorCalibration.

(** [calibrate_confidence_level]: the module text defines it once, in its
    first part, and no later part rebinds the name.  [None] stands for a
    string that is none of the three results. *)
Definition calibrate_confidence_level
    (assessment_result : option Understanding) (retry_count : Z) : Confidence :=
  match assessment_result with
  | Some fully_understood =>
      if (retry_count =? 0)%Z then high
      else if (retry_count =? 1)%Z then medium_high
      else medium
  | Some partially_understood =>
      if (retry_count <=? 1)%Z then medium else low
  | Some not_understood =>
      if (2 <=? retry_count)%Z then low else medium
  | None => medium
  end.

(** The order of the results and of the confidence levels, from worst to
    best. *)
Definition understanding_rank (u : Understanding) : nat :=
  match u with
  | not_understood => 0
  | partially_understood => 1
  | fully_understood => 2
  end.

Definition confidence_rank (c : Confidence) : nat :=
  match c with low => 0 | medium => 1 | medium_high => 2 | high => 3 end.

End AssessorCalibration.

(* ===================================================================== *)
(** ** Concrete inputs used by examples and witnesses *)
(* ===================================================================== *)

Module Fixtures.

(** Five expected key points, and a response of thirty characters that
    holds no negative keyword. *)
Definition five_points : list pystr :=
  [of_ascii "alpha"; of_ascii "beta"; of_ascii "gamma"; of_ascii "delta";
   of_ascii "omega"].

Definition four_points : list pystr :=
  [of_ascii "alpha"; of_ascii "beta"; of_ascii "gamma"; of_ascii "delta"].

Definition long_response : pystr := of_ascii "alpha and beta relate to gamma".

(** "I don't understand this topic": English words, none of the negative
    keywords of the source. *)
Definition english_negative : pystr := of_ascii "I don't understand this topic".

(** Ten characters, six of them blanks around the text. *)
Definition padded_response : pystr := of_ascii "   beta   ".

Definition two_misunderstandings : list pystr :=
  [of_ascii "mixes up alpha and beta"; of_ascii "gamma is taken for delta"].

(** The runtime's table of decimal digits outside ASCII, cut down to the
    Arabic-Indic digits (enough for examples written in ASCII). *)
Definition nd_arabic_indic (c : N) : bool := ((0x660 <=? c) && (c <=? 0x669))%N.

(** An explanation with three numbers and a comparison. *)
Definition rates_explanation : pystr :=
  of_ascii "Rate 5 vs rate 12: the limit is 300".

(** An explanation with two numbers and a comparison. *)
Definition two_rates_explanation : pystr := of_ascii "Rate 5 vs rate 12".

(** A feature record that reports high abstraction, no number and no
    comparison. *)
Definition abstract_features : gmap string MnemonicTools.FeatureValue :=
  <["formulas_count" := MnemonicTools.FInt 0]>
  (<["has_comparison" := MnemonicTools.FBool false]>
  (<["abstraction_level" := MnemonicTools.FStr "high"]> ∅)).

(** An environment in which nothing fails: the model answers learn, every
    agent ends with an empty state, the clock counts events. *)
Definition empty_agent_state : Workflow.AgentState :=
  {| Workflow.s_baseline_level := None;
     Workflow.s_baseline_assessment := None;
     Workflow.s_retrieved_concepts := None;
     Workflow.s_validation_result := None;
     Workflow.s_verification_sources := None;
     Workflow.s_explanation := None;
     Workflow.s_generated_mnemonic := None;
     Workflow.s_recommended_strategies := None;
     Workflow.s_comprehension_questions := None;
     Workflow.s_assessment_result := None;
     Workflow.s_confidence_level := None;
     Workflow.s_assessment_details := None;
     Workflow.s_key_points_understood := None;
     Workflow.s_misunderstandings := None;
     Workflow.s_next_action := None;
     Workflow.s_knowledge_gaps := None;
     Workflow.s_efficiency_metrics := None;
     Workflow.s_review_recommendations := None |}.

Definition quiet_env : Workflow.Env :=
  {| Workflow.env_now := fun k => N.of_nat k;
     Workflow.env_llm := fun _ _ => inr (Some (of_ascii "learn"));
     Workflow.env_agent := fun _ _ => inr empty_agent_state |}.

(** The same, with a model that answers the given word. *)
Definition env_answering (word : string) : Workflow.Env :=
  {| Workflow.env_now := fun k => N.of_nat k;
     Workflow.env_llm := fun _ _ => inr (Some (of_ascii word));
     Workflow.env_agent := fun _ _ => inr empty_agent_state |}.

(** An environment whose agents all fail. *)
Definition failing_env : Workflow.Env :=
  {| Workflow.env_now := fun k => N.of_nat k;
     Workflow.env_llm := fun _ _ => inr (Some (of_ascii "learn"));
     Workflow.env_agent := fun _ _ => inl (Exn "connection refused") |}.

Definition question : pystr := of_ascii "What is a derivative?".

(** A fresh session, as [create_initial_state] builds it. *)
Definition session0 : Workflow.TeachingState :=
  Workflow.initial_state 1%N 2%N 3%N (Some question) None 0%N.



(** An explanation of 301 characters. *)
Definition long_explanation : pystr := repeat 0x61%N 301.

(** A tool set of the assessor in which key point extraction fails (the
    model behind it is out of reach) and the next action is decided by the
    rule of the source. *)
Definition decide_tool : ReactCycle.Tool :=
  fun args =>
    match args !! "retry_count", args !! "max_retries" with
    | Some (ReactCycle.PyInt r), Some (ReactCycle.PyInt m) =>
        inr (ReactCycle.PyStr
               (AssessorTools.decide_next_action
                  (match args !! "assessment_result" with
                   | Some (ReactCycle.PyStr "fully_understood") =>
                       Some fully_understood
                   | Some (ReactCycle.PyStr "partially_understood") =>
                       Some partially_understood
                   | Some (ReactCycle.PyStr "not_understood") =>
                       Some not_understood
                   | _ => None
                   end) r m))
    | _, _ => inl (Exn "validation error for decide_next_action")
    end.

Definition assessor_tools : list (string * ReactCycle.Tool) :=
  [ ("extract_key_points", fun _ => inl (Exn "rate limit exceeded"));
    ("decide_next_action", decide_tool) ].

Definition extract_call : ReactCycle.ToolCall :=
  {| ReactCycle.tc_id := "call_1";
     ReactCycle.tc_name := "extract_key_points";
     ReactCycle.tc_args :=
       {[ "learner_response" := ReactCycle.PyStr "a derivative is a slope" ]} |}.

Definition has_tool_message (ms : list ReactCycle.Message) : bool :=
  existsb (fun m => match m with
                    | ReactCycle.ToolMessage _ _ => true
                    | _ => false
                    end) ms.

(** A model that asks for key point extraction once and, having seen an
    observation, answers in words. *)
Definition scripted_model (ms : list ReactCycle.Message)
    : exn + string * list ReactCycle.ToolCall :=
  if has_tool_message ms
  then inr ("The key points could not be extracted.", [])
  else inr ("", [extract_call]).

Definition assessor_start : ReactCycle.KnowledgeAssessorState :=
  ReactCycle.initial_state "assess_understanding" "What is a derivative?"
    "A derivative measures rate of change" "a derivative is a slope"
    [] [] None 0 3.

(** The state of that agent once the model has asked for the extraction. *)
Definition assessor_asked : ReactCycle.KnowledgeAssessorState :=
  ReactCycle.set_messages
    [ ReactCycle.HumanMessage "system prompt";
      ReactCycle.HumanMessage "task";
      ReactCycle.AIMessage "" [extract_call] ]
    assessor_start.

End Fixtures.

(* ===================================================================== *)
(** * Theorems *)
(* ===================================================================== *)

(* --------------------------------------------------------------------- *)
(** ** Strings *)
(* --------------------------------------------------------------------- *)

Module PyStrFacts.

Lemma lstrip_length (s : pystr) : (length (lstrip s) <= length s)%nat.
Proof.
  induction s as [|c s IH]; simpl; [lia|].
  destruct (isspace c); simpl; lia.
Qed.

(** Stripping never makes a string longer. *)
Lemma strip_length (s : pystr) : (length (strip s) <= length s)%nat.
Proof.
  unfold strip, rstrip.
  rewrite length_rev.
  etransitivity; [apply lstrip_length|].
  rewrite length_rev. apply lstrip_length.
Qed.

(** A code point below 128 is a digit exactly when it is one of 0-9,
    whatever the runtime's tables say about the rest of Unicode. *)
Lemma re_digit_ascii (nd : N -> bool) (c : N) :
  (c < 0x80)%N -> re_digit nd c = ((0x30 <=? c) && (c <=? 0x39))%N.
Proof.
  intros Hc. unfold re_digit.
  replace (0x80 <=? c)%N with false by (symmetry; apply N.leb_gt; exact Hc).
  simpl. now rewrite orb_false_r.
Qed.

End PyStrFacts.

(* --------------------------------------------------------------------- *)
(** ** Understanding assessment *)
(* --------------------------------------------------------------------- *)

Module AssessorFacts.

Import AssessorTools Fixtures.

Lemma Qle_bool_false (a b : Q) : Qle_bool a b = false <-> (b < a)%Q.
Proof.
  split.
  - intros H. apply Qnot_le_lt. intros Hle.
    apply Qle_bool_iff in Hle. congruence.
  - intros H. destruct (Qle_bool a b) eqn:E; [|reflexivity].
    apply Qle_bool_iff in E. exfalso. now apply (Qlt_not_le b a).
Qed.

(** Case analysis on the tests of [assess_understanding_level], each test
    turned into the proposition it decides. *)
Ltac assess_cases kpu mis expected resp :=
  unfold assess_understanding_level;
  (destruct (length (strip resp) <? 10)%nat eqn:Hshort;
   [ apply Nat.ltb_lt in Hshort | apply Nat.ltb_ge in Hshort ]);
  destruct (any_in negative_keywords resp) eqn:Hneg;
  (destruct (Qle_bool (8 # 10) (coverage kpu expected)) eqn:H8;
   [ apply Qle_bool_iff in H8 | apply Qle_bool_false in H8 ]);
  (destruct (Qle_bool (5 # 10) (coverage kpu expected)) eqn:H5;
   [ apply Qle_bool_iff in H5 | apply Qle_bool_false in H5 ]);
  (destruct (Qle_bool (3 # 10) (coverage kpu expected)) eqn:H3;
   [ apply Qle_bool_iff in H3 | apply Qle_bool_false in H3 ]);
  (destruct (2 <=? length mis)%nat eqn:Hser;
   [ apply Nat.leb_le in Hser | apply Nat.leb_gt in Hser ]);
  cbn [andb orb negb assessment_result].

(** Orderings of the thresholds that no coverage satisfies. *)
Ltac absurd_thresholds :=
  match goal with
  | Ha : (?a <= ?c)%Q, Hb : (?c < ?b)%Q |- _ =>
      exfalso; apply (Qlt_irrefl c);
      apply Qlt_le_trans with b; [exact Hb|];
      apply Qle_trans with a; [now vm_compute|exact Ha]
  end.

(** A response shorter than ten characters is not understood, whatever
    the key points are: stripping only shortens it. *)
Lemma short_response_not_understood (kpu mis expected : list pystr) (resp : pystr) :
  (length resp < 10)%nat ->
  assessment_result (assess_understanding_level kpu mis expected resp)
  = not_understood.
Proof.
  intros H. unfold assess_understanding_level.
  pose proof (PyStrFacts.strip_length resp) as Hs.
  replace (length (strip resp) <? 10)%nat with true; [reflexivity|].
  symmetry. apply Nat.ltb_lt. lia.
Qed.

(** C5, as the claim states it, fails: a response of thirty characters
    without negative keyword, two of five expected points understood
    (coverage 2/5, below 0.5) and no misunderstanding is classified
    partially understood, not not understood; and with all five points
    understood (coverage 1, at least 0.8) but two misunderstandings it is
    classified partially understood, not fully understood. *)
Lemma assess_level_spec_thresholds_fail :
  ~ (forall kpu mis expected resp,
        (10 <= length resp)%nat ->
        any_in negative_keywords resp = false ->
        let r := assessment_result
                   (assess_understanding_level kpu mis expected resp) in
        let c := coverage kpu expected in
        ((c < 5 # 10)%Q -> r = not_understood))
  /\
  ~ (forall kpu mis expected resp,
        (10 <= length resp)%nat ->
        any_in negative_keywords resp = false ->
        let r := assessment_result
                   (assess_understanding_level kpu mis expected resp) in
        let c := coverage kpu expected in
        ((8 # 10 <= c)%Q -> r = fully_understood)).
Proof.
  split; intros H.
  - specialize (H [of_ascii "alpha"; of_ascii "beta"] [] five_points long_response).
    assert (E : partially_understood = not_understood).
    { apply H; vm_compute; congruence || reflexivity || lia. }
    discriminate E.
  - specialize (H five_points two_misunderstandings five_points long_response).
    assert (E : partially_understood = fully_understood).
    { apply H; vm_compute; congruence || reflexivity || lia. }
    discriminate E.
Qed.

(** C5, amended.  With [c] the coverage (the share of expected key points
    matched by an understood key point that contains one of them, or
    min(understood/3, 1) when nothing is expected) and [n] the number of
    misunderstandings:
    - a response whose stripped length is below 10 is not understood;
    - a response holding one of the five negative keywords is not
      understood;
    - otherwise the result is fully understood exactly when c >= 0.8 and
      n < 2; partially understood exactly when that fails and c >= 0.5, or
      c >= 0.3 and n < 2; not understood exactly when c < 0.3, or c < 0.5
      and n >= 2;
    - with fewer than two misunderstandings the ratios 4/5, 2/4 and 1/5
      give fully, partially and not understood. *)
Theorem assess_level_classification
    (kpu mis expected : list pystr) (resp : pystr) :
  let r := assessment_result (assess_understanding_level kpu mis expected resp) in
  let c := coverage kpu expected in
  let n := length mis in
  ((length (strip resp) < 10)%nat -> r = not_understood) /\
  ((length resp < 10)%nat -> r = not_understood) /\
  (any_in negative_keywords resp = true -> r = not_understood) /\
  ((10 <= length (strip resp))%nat ->
   any_in negative_keywords resp = false ->
   (r = fully_understood <-> (8 # 10 <= c)%Q /\ (n < 2)%nat) /\
   (r = partially_understood <->
      ~ ((8 # 10 <= c)%Q /\ (n < 2)%nat) /\
      ((5 # 10 <= c)%Q \/ (3 # 10 <= c)%Q /\ (n < 2)%nat)) /\
   (r = not_understood <->
      (c < 3 # 10)%Q \/ (c < 5 # 10)%Q /\ (2 <= n)%nat)) /\
  (coverage four_points five_points == 4 # 5)%Q /\
  assessment_result
    (assess_understanding_level four_points [] five_points long_response)
  = fully_understood /\
  (coverage [of_ascii "alpha"; of_ascii "beta"] four_points == 2 # 4)%Q /\
  assessment_result
    (assess_understanding_level [of_ascii "alpha"; of_ascii "beta"] []
       four_points long_response)
  = partially_understood /\
  (coverage [of_ascii "alpha"] five_points == 1 # 5)%Q /\
  assessment_result
    (assess_understanding_level [of_ascii "alpha"] [] five_points long_response)
  = not_understood.
Proof.
  cbv zeta.
  split; [|split; [|split; [|split; [|repeat split; now vm_compute]]]].
  - intros H. assess_cases kpu mis expected resp; (reflexivity || lia).
  - apply short_response_not_understood.
  - intros H. assess_cases kpu mis expected resp;
      (reflexivity || congruence).
  - intros Hlen Hno.
    assess_cases kpu mis expected resp; try lia; try congruence;
      try absurd_thresholds;
      (split; [|split]); split;
        try (intros E; discriminate E);
        try reflexivity;
        intros; intuition (try lia; try discriminate; try absurd_thresholds).
Qed.

Lemma coverage_counts (kpu1 kpu2 exp1 exp2 : list pystr) :
  covered kpu1 exp1 = covered kpu2 exp2 ->
  length exp1 = length exp2 ->
  length kpu1 = length kpu2 ->
  coverage kpu1 exp1 = coverage kpu2 exp2.
Proof.
  intros Hc He Hk. unfold coverage.
  destruct exp1 as [|e1 exp1], exp2 as [|e2 exp2]; try discriminate He.
  - now rewrite Hk.
  - now rewrite Hc, He.
Qed.

(** C6, as the claim states it, fails: with the same response, the same
    expected key points and the same (empty) list of misunderstandings, the
    result is fully understood when all five points were extracted as
    understood and not understood when none was. *)
Lemma assessment_depends_on_understood_points :
  ~ (forall kpu1 kpu2 mis expected resp,
        assessment_result (assess_understanding_level kpu1 mis expected resp)
        = assessment_result (assess_understanding_level kpu2 mis expected resp)).
Proof.
  intros H.
  specialize (H five_points [] [] five_points long_response).
  vm_compute in H. discriminate H.
Qed.

(** C6, amended.  The result of [assess_understanding_level] is the same
    in two runs that get the same learner response and agree on the
    understood key points, the expected key points and the
    misunderstandings; it is enough that they agree on how many there are
    of each (for the understood key points: in total, and among those that
    contain an expected key point). *)
Theorem assessment_result_determined
    (kpu1 kpu2 mis1 mis2 exp1 exp2 : list pystr) (resp : pystr) :
  covered kpu1 exp1 = covered kpu2 exp2 ->
  length exp1 = length exp2 ->
  length kpu1 = length kpu2 ->
  length mis1 = length mis2 ->
  assessment_result (assess_understanding_level kpu1 mis1 exp1 resp)
  = assessment_result (assess_understanding_level kpu2 mis2 exp2 resp).
Proof.
  intros Hc He Hk Hm.
  unfold assess_understanding_level.
  rewrite (coverage_counts kpu1 kpu2 exp1 exp2 Hc He Hk), Hm.
  reflexivity.
Qed.

(** Two runs on the same response and key points whose single
    misunderstanding is worded differently. *)
Lemma assessment_result_determined_witness :
  covered four_points five_points = covered four_points five_points /\
  length [of_ascii "mixes up alpha and beta"]
  = length [of_ascii "gamma is taken for delta"] /\
  assessment_result
    (assess_understanding_level four_points
       [of_ascii "mixes up alpha and beta"] five_points long_response)
  = assessment_result
      (assess_understanding_level four_points
         [of_ascii "gamma is taken for delta"] five_points long_response).
Proof.
  split; [reflexivity|split; [reflexivity|]].
  apply assessment_result_determined; reflexivity.
Defined.

End AssessorFacts.

(* --------------------------------------------------------------------- *)
(** ** Mnemonic strategy selection *)
(* --------------------------------------------------------------------- *)

Module MnemonicFacts.

Import MnemonicTools Fixtures.

(** The record built by [analyze_concept_features] holds its four keys
    with the types the selection expects. *)
Lemma analyze_lookups (nd : N -> bool) (name explanation : pystr) :
  let features := analyze_concept_features nd name explanation in
  features !! "formulas_count"
  = Some (FInt (Z.of_nat (count_digit_runs nd false explanation))) /\
  features !! "has_comparison"
  = Some (FBool (contains (of_ascii "vs") explanation
                 || contains [0x5BF9; 0x6BD4]%N explanation)) /\
  features !! "abstraction_level" = Some (FStr "medium").
Proof.
  unfold analyze_concept_features. cbv zeta.
  split; [|split].
  - now rewrite lookup_insert_eq.
  - rewrite lookup_insert_ne by discriminate. now rewrite lookup_insert_eq.
  - do 2 (rewrite lookup_insert_ne by discriminate).
    now rewrite lookup_insert_eq.
Qed.

(** C8.  For a feature record that holds a formula count [n], a
    comparison flag and an abstraction level (as every record of
    [analyze_concept_features] does), the selection returns a list that is
    never empty.  It holds acronym when [n] is at least 3, comparison when
    the flag is set and analogy when the level is "high", in this order and
    nothing else; when none of the three rules fires the list is the
    default, acronym alone. *)
Theorem select_mnemonic_strategy_rules (features : gmap string FeatureValue)
    (n : Z) (comparison : bool) (level : string) :
  features !! "formulas_count" = Some (FInt n) ->
  features !! "has_comparison" = Some (FBool comparison) ->
  features !! "abstraction_level" = Some (FStr level) ->
  exists strategies,
    select_mnemonic_strategy features = inr strategies /\
    strategies <> [] /\
    (In "acronym" strategies
     <-> (3 <= n)%Z \/ (comparison = false /\ level <> "high")) /\
    (In "comparison" strategies <-> comparison = true) /\
    (In "analogy" strategies <-> level = "high") /\
    (forall s, In s strategies ->
               s = "acronym" \/ s = "comparison" \/ s = "analogy") /\
    ((n < 3)%Z -> comparison = false -> level <> "high" ->
     strategies = ["acronym"]) /\
    strategies
    = match (if (3 <=? n)%Z then ["acronym"] else [])
            ++ (if comparison then ["comparison"] else [])
            ++ (if String.eqb level "high" then ["analogy"] else [])
      with
      | [] => ["acronym"]
      | s :: rest => s :: rest
      end.
Proof.
  intros Hn Hc Hl.
  unfold select_mnemonic_strategy, formulas_ge_3, abstraction_high.
  rewrite Hn, Hc, Hl. cbn [truthy].
  destruct (Z.leb_spec 3 n) as [Hle|Hlt];
    destruct comparison;
    destruct (String.eqb_spec level "high") as [Hhigh|Hhigh];
    (eexists; split; [reflexivity|]);
    cbn [app In];
    repeat split; try discriminate; try tauto; try lia;
    intuition (try discriminate; try congruence; try lia).
Qed.

(** The record computed from an explanation with three numbers and the
    word "vs" selects acronym and comparison; with two numbers and "vs" it
    selects comparison alone; a record of high abstraction without numbers
    or comparison selects analogy alone. *)
Lemma select_mnemonic_strategy_rules_witness :
  select_mnemonic_strategy
    (analyze_concept_features nd_arabic_indic (of_ascii "rates")
       rates_explanation)
  = inr ["acronym"; "comparison"] /\
  select_mnemonic_strategy
    (analyze_concept_features nd_arabic_indic (of_ascii "rates")
       two_rates_explanation)
  = inr ["comparison"] /\
  select_mnemonic_strategy abstract_features = inr ["analogy"].
Proof.
  split; [|split].
  - destruct (select_mnemonic_strategy_rules
                (analyze_concept_features nd_arabic_indic (of_ascii "rates")
                   rates_explanation) 3 true "medium"
                eq_refl eq_refl eq_refl)
      as (strategies & Hsel & _ & _ & _ & _ & _ & _ & Heq).
    rewrite Hsel, Heq. reflexivity.
  - destruct (select_mnemonic_strategy_rules
                (analyze_concept_features nd_arabic_indic (of_ascii "rates")
                   two_rates_explanation) 2 true "medium"
                eq_refl eq_refl eq_refl)
      as (strategies & Hsel & _ & _ & _ & _ & _ & _ & Heq).
    rewrite Hsel, Heq. reflexivity.
  - destruct (select_mnemonic_strategy_rules abstract_features 0 false "high"
                eq_refl eq_refl eq_refl)
      as (strategies & Hsel & _ & _ & _ & _ & _ & _ & Heq).
    rewrite Hsel, Heq. reflexivity.
Defined.

(** Records produced by concept analysis: the selection never raises,
    acronym is selected exactly when the explanation holds at least three
    numbers or no comparison marker, comparison exactly when it holds a
    comparison marker, and analogy never, since the analysis always reports
    medium abstraction. *)
Lemma select_after_analysis (nd : N -> bool) (name explanation : pystr) :
  let numbers := count_digit_runs nd false explanation in
  let comparison :=
    contains (of_ascii "vs") explanation
    || contains [0x5BF9; 0x6BD4]%N explanation in
  select_mnemonic_strategy (analyze_concept_features nd name explanation)
  = inr (match (3 <=? numbers)%nat, comparison with
         | true, true => ["acronym"; "comparison"]
         | true, false => ["acronym"]
         | false, true => ["comparison"]
         | false, false => ["acronym"]
         end).
Proof.
  cbv zeta.
  destruct (analyze_lookups nd name explanation) as (Hf & Hc & Ha).
  unfold select_mnemonic_strategy, formulas_ge_3, abstraction_high.
  rewrite Hf, Hc, Ha. cbn [truthy String.eqb].
  replace (3 <=? Z.of_nat (count_digit_runs nd false explanation))%Z
    with (3 <=? count_digit_runs nd false explanation)%nat.
  2:{ destruct (3 <=? count_digit_runs nd false explanation)%nat eqn:E.
      - apply Nat.leb_le in E. symmetry. apply Z.leb_le. lia.
      - apply Nat.leb_gt in E. symmetry. apply Z.leb_gt. lia. }
  destruct (3 <=? count_digit_runs nd false explanation)%nat,
    (contains (of_ascii "vs") explanation
     || contains [0x5BF9; 0x6BD4]%N explanation); reflexivity.
Qed.

End MnemonicFacts.

(* --------------------------------------------------------------------- *)
(** ** The workflow: routing decisions *)
(* --------------------------------------------------------------------- *)

Module WorkflowFacts.

Import Workflow Fixtures.

Local Open Scope string_scope.





(* --------------------------------------------------------------------- *)
(** ** The workflow: the assessment stage without a response *)
(* --------------------------------------------------------------------- *)

Lemma nonempty_false (s : option pystr) :
  nonempty s = false <-> s = None \/ s = Some [].
Proof.
  destruct s as [[|c r]|]; simpl; split; intros H; auto; try discriminate.
  destruct H as [H|H]; discriminate.
Qed.

(** C10.  When the learner response is unset or empty, the assessment
    stage returns at once: it calls no agent (the log of the run is the
    one it was given), and its update sets the assessment result to not
    understood and the stage tag to assessment_failed; every other field of
    the state is as before. *)
Theorem assess_without_response (env : Env) (st : TeachingState)
    (log : list Event) :
  learner_response st = None \/ learner_response st = Some [] ->
  let update := [U_assessment_result (Some not_understood);
                 U_workflow_stage (Some "assessment_failed")] in
  let st' := merge st update in
  _assess_understanding_node env st log = (inr update, log) /\
  invocations (snd (_assess_understanding_node env st log)) = invocations log /\
  assessment_result st' = Some not_understood /\
  workflow_stage st' = Some "assessment_failed" /\
  session_id st' = session_id st /\
  learner_id st' = learner_id st /\
  goal_id st' = goal_id st /\
  tenant_id st' = tenant_id st /\
  current_topic_id st' = current_topic_id st /\
  question_text st' = question_text st /\
  initial_understanding st' = initial_understanding st /\
  learner_name st' = learner_name st /\
  learner_preferences st' = learner_preferences st /\
  mastered_topics st' = mastered_topics st /\
  knowledge_gaps st' = knowledge_gaps st /\
  retrieved_concepts st' = retrieved_concepts st /\
  needs_validation st' = needs_validation st /\
  validation_items st' = validation_items st /\
  validation_result st' = validation_result st /\
  verified_sources st' = verified_sources st /\
  skip_validation st' = skip_validation st /\
  baseline_level st' = baseline_level st /\
  baseline_assessment st' = baseline_assessment st /\
  explanation st' = explanation st /\
  teaching_method st' = teaching_method st /\
  teaching_mode_id st' = teaching_mode_id st /\
  available_teaching_modes st' = available_teaching_modes st /\
  needs_mnemonic st' = needs_mnemonic st /\
  mnemonic_strategy st' = mnemonic_strategy st /\
  generated_mnemonic st' = generated_mnemonic st /\
  mnemonic_devices st' = mnemonic_devices st /\
  recommended_strategy st' = recommended_strategy st /\
  skip_mnemonic st' = skip_mnemonic st /\
  comprehension_questions st' = comprehension_questions st /\
  learner_response st' = learner_response st /\
  assessment_details st' = assessment_details st /\
  confidence_level st' = confidence_level st /\
  key_points_understood st' = key_points_understood st /\
  misunderstandings st' = misunderstandings st /\
  intent st' = intent st /\
  next_action st' = next_action st /\
  retry_count st' = retry_count st /\
  max_retries st' = max_retries st /\
  recommended_topics st' = recommended_topics st /\
  review_reminders st' = review_reminders st /\
  learning_efficiency st' = learning_efficiency st /\
  sub_agent_calls st' = sub_agent_calls st /\
  current_sub_agent st' = current_sub_agent st /\
  sub_agent_results st' = sub_agent_results st /\
  timestamp st' = timestamp st /\
  error_message st' = error_message st /\
  question_id st' = question_id st /\
  explanation_id st' = explanation_id st /\
  check_id st' = check_id st.
Proof.
  intros H. apply nonempty_false in H. cbv zeta.
  assert (E : _assess_understanding_node env st log
              = (inr [U_assessment_result (Some not_understood);
                      U_workflow_stage (Some "assessment_failed")], log))
    by (unfold _assess_understanding_node; rewrite H; reflexivity).
  split; [exact E|]. split; [now rewrite E|].
  destruct st. cbn. repeat split; reflexivity.
Qed.

(** A fresh session has no learner response: its assessment stage fails
    without a call. *)
Lemma assess_without_response_witness :
  (learner_response session0 = None \/ learner_response session0 = Some []) /\
  _assess_understanding_node quiet_env session0 []
  = (inr [U_assessment_result (Some not_understood);
          U_workflow_stage (Some "assessment_failed")], []).
Proof.
  split; [left; reflexivity|].
  apply (assess_without_response quiet_env session0 []).
  left. reflexivity.
Defined.

(* --------------------------------------------------------------------- *)
(** ** The workflow: the node methods and the graph *)
(* --------------------------------------------------------------------- *)




(** Case analysis on a method of the class. *)
Ltac each_method H :=
  cbn [node_methods In] in H;
  repeat (destruct H as [H|H]; [injection H as <- <- | ]); [..|contradiction].

Ltac unfold_methods :=
  unfold _initialize_node, _detect_intent_node, _evaluate_baseline_node,
    _retrieve_knowledge_node, _validate_content_node,
    _generate_explanation_node, _generate_mnemonic_node,
    _create_comprehension_check_node, _wait_for_response_node,
    _assess_understanding_node, _adaptive_followup_node,
    _update_progress_node, _record_gap_node, _progress_entry_node,
    _review_entry_node, _assessment_entry_node, _other_entry_node,
    _finalize_node, bind, try_except, invoke_agent, llm, now, ret.

Ltac case_env :=
  repeat match goal with
         | |- context [if ?b then _ else _] => destruct b
         | |- context [match or_empty ?x with _ => _ end] =>
             destruct (or_empty x)
         | |- context [env_agent ?e ?k ?i] => destruct (env_agent e k i)
         | |- context [env_llm ?e ?k ?i] => destruct (env_llm e k i)
         end.


(** The keys a method may write: no method returns an entry for the retry
    counter, the retry limit, the error message or the learner response. *)
Lemma method_leaves env name f st log update log' :
  In (name, f) (node_methods env) ->
  f st log = (inr update, log') ->
  leaves "retry_count" update /\ leaves "max_retries" update /\
  leaves "error_message" update /\ leaves "learner_response" update.
Proof.
  intros H. unfold leaves.
  each_method H; unfold_methods; case_env; intros E;
    try discriminate E; injection E as <- <-;
    repeat split; repeat constructor; discriminate.
Qed.

Lemma merge_cons st u update :
  merge st (u :: update) = merge (apply_update st u) update.
Proof. reflexivity. Qed.

(** Merging an update that has no entry for these keys leaves them as they
    were. *)
Lemma merge_leaves_retry_count st update :
  leaves "retry_count" update -> retry_count (merge st update) = retry_count st.
Proof.
  revert st. induction update as [|u update IH]; intros st H; [reflexivity|].
  inversion H as [|? ? Hu Hrest]; subst.
  rewrite merge_cons, (IH _ Hrest).
  destruct u, st; cbn in *; congruence.
Qed.

Lemma merge_leaves_max_retries st update :
  leaves "max_retries" update -> max_retries (merge st update) = max_retries st.
Proof.
  revert st. induction update as [|u update IH]; intros st H; [reflexivity|].
  inversion H as [|? ? Hu Hrest]; subst.
  rewrite merge_cons, (IH _ Hrest).
  destruct u, st; cbn in *; congruence.
Qed.

Lemma merge_leaves_error_message st update :
  leaves "error_message" update ->
  error_message (merge st update) = error_message st.
Proof.
  revert st. induction update as [|u update IH]; intros st H; [reflexivity|].
  inversion H as [|? ? Hu Hrest]; subst.
  rewrite merge_cons, (IH _ Hrest).
  destruct u, st; cbn in *; congruence.
Qed.

(** The nodes of the graph: the three the source registers. *)
Lemma graph_nodes env nd :
  sg_nodes (graph env nd)
  = <["finalize" := _finalize_node env]>
      (<["detect_intent" := _detect_intent_node env]>
         (<["initialize" := _initialize_node env]> ∅)).
Proof. reflexivity. Qed.

Lemma graph_lookup env nd name f :
  sg_nodes (graph env nd) !! name = Some f ->
  (name, f) = ("finalize", _finalize_node env) \/
  (name, f) = ("detect_intent", _detect_intent_node env) \/
  (name, f) = ("initialize", _initialize_node env).
Proof.
  rewrite graph_nodes. intros H.
  apply lookup_insert_Some in H as [[<- <-]|[_ H]]; [auto|].
  apply lookup_insert_Some in H as [[<- <-]|[_ H]]; [auto|].
  apply lookup_insert_Some in H as [[<- <-]|[_ H]]; [auto|].
  rewrite lookup_empty in H. discriminate.
Qed.

Lemma registered_iff env nd name :
  registered (graph env nd) name = true
  <-> name = "initialize" \/ name = "detect_intent" \/ name = "finalize".
Proof.
  unfold registered. split.
  - destruct (sg_nodes (graph env nd) !! name) as [f|] eqn:E; [|discriminate].
    intros _. apply graph_lookup in E as [E|[E|E]]; injection E as -> _; auto.
  - intros [-> | [-> | ->]]; reflexivity.
Qed.




(** Creating the workflow raises: the graph does not pass the validation
    of [compile], and no compiled graph has a method [getgraph]. *)
Lemma compile_graph_raises env nd :
  compile (graph env nd)
  = inl (Exn "Found edge starting at unknown node 'evaluate_baseline'").
Proof. reflexivity. Qed.

Lemma getgraph_raises (w : CompiledStateGraph) :
  getattr w "getgraph"
  = inl (Exn "'CompiledStateGraph' object has no attribute 'getgraph'").
Proof. reflexivity. Qed.

Lemma create_raises env nd :
  create_teaching_workflow env nd
  = inl (Exn "Found edge starting at unknown node 'evaluate_baseline'").
Proof. reflexivity. Qed.

Lemma create_and_run_raises env nd fuel learner goal tenant q log :
  create_and_run env nd fuel learner goal tenant q log
  = (inl (Exn "Found edge starting at unknown node 'evaluate_baseline'"), log).
Proof. reflexivity. Qed.

(* --------------------------------------------------------------------- *)
(** ** The workflow: retries, sessions and failures *)
(* --------------------------------------------------------------------- *)


(** C1, the code at the failing input.  No method of the workflow returns
    an entry for [retry_count] or [max_retries], so merging the update of a
    stage leaves both as they were; the explanation stage, which a retry
    enters, returns the explanation and the stage tag only.  The router
    after the assessment answers retry on not understood as long as the
    counter is below the limit (and whatever the counter is when the
    assessor recommends retry), and the graph sends retry to
    generate_explanation.  On a session with a result of not understood, a
    counter of 0 and a limit of 3 the router answers retry, the
    explanation stage leaves the counter at 0, and the router answers
    retry again. *)
Theorem retry_count_never_advances (env : Env) (nd : N -> bool) :
  (forall name f st log update log',
      In (name, f) (node_methods env) ->
      f st log = (inr update, log') ->
      leaves "retry_count" update /\ leaves "max_retries" update /\
      retry_count (merge st update) = retry_count st /\
      max_retries (merge st update) = max_retries st) /\
  (forall st log,
      match _generate_explanation_node env st log with
      | (inr update, _) =>
          List.map key update = ["explanation"; "workflow_stage"]
      | (inl _, _) => True
      end) /\
  (forall st,
      assessment_result st = Some not_understood ->
      no_recommendation st ->
      _route_after_assessment st
      = if (retry_count st <? max_retries st)%Z then "retry" else "record_gap") /\
  (forall st,
      _route_after_assessment (set_next_action (Some "retry") st) = "retry") /\
  branch_target (graph env nd) "assess_understanding" "retry"
  = Some "generate_explanation" /\
  branch_target (graph env nd) "assess_understanding" "record_gap"
  = Some "record_gap" /\
  let st := set_assessment_result (Some not_understood) session0 in
  retry_count st = 0%Z /\ max_retries st = 3%Z /\
  _route_after_assessment st = "retry" /\
  exists update log',
    _generate_explanation_node quiet_env st [] = (inr update, log') /\
    retry_count (merge st update) = 0%Z /\
    _route_after_assessment (merge st update) = "retry".
Proof.
  split; [|split; [|split; [|split; [|split; [|split]]]]].
  - intros name f st log update log' Hin E.
    destruct (method_leaves env name f st log update log' Hin E)
      as (H1 & H2 & _).
    auto using merge_leaves_retry_count, merge_leaves_max_retries.
  - intros st log. unfold _generate_explanation_node, bind, invoke_agent, ret.
    destruct (env_agent env _ _); [exact I|reflexivity].
  - intros st Ha Hn. unfold _route_after_assessment. rewrite Ha.
    destruct Hn as [-> | ->]; reflexivity.
  - intros st. destruct st; reflexivity.
  - reflexivity.
  - reflexivity.
  - cbv zeta. split; [reflexivity|]. split; [reflexivity|].
    split; [reflexivity|].
    eexists. eexists. split; [reflexivity|]. split; reflexivity.
Qed.

(** C2, the code at the failing input.  [_build_workflow] registers three
    nodes, initialize, detect_intent and finalize; the target of every
    intent at detect_intent is a name that is not registered.  [compile]
    refuses such a graph, and the method the source calls on the compiled
    graph, [getgraph], does not exist: creating the workflow raises, and a
    session that is started by creating the workflow and calling [run]
    ends with that exception, before any stage is entered.  No session
    reaches finalize. *)
Theorem workflow_creation_raises (env : Env) (nd : N -> bool) (fuel : nat)
    (learner goal tenant : UUID) (q : pystr) :
  (forall name,
      registered (graph env nd) name = true
      <-> name = "initialize" \/ name = "detect_intent" \/ name = "finalize") /\
  (forall label,
      In label ["learn"; "practice"; "progress"; "review"; "other"] ->
      exists target,
        branch_target (graph env nd) "detect_intent" label = Some target /\
        registered (graph env nd) target = false) /\
  In "evaluate_baseline" (unknown_sources (graph env nd)) /\
  (exists e, compile (graph env nd) = inl e) /\
  (forall w, exists e, getattr w "getgraph" = inl e) /\
  (exists e, create_teaching_workflow env nd = inl e) /\
  (exists e,
      create_and_run env nd fuel learner goal tenant q [] = (inl e, [])) /\
  entered (snd (create_and_run env nd fuel learner goal tenant q [])) = [] /\
  (forall st,
      fst (create_and_run env nd fuel learner goal tenant q [])
      <> inr (Finished st)).
Proof.
  split; [|split; [|split; [|split; [|split; [|split; [|split; [|split]]]]]]].
  - apply registered_iff.
  - intros label H. cbn [In] in H.
    repeat (destruct H as [<- | H]; [eexists; split; reflexivity|]).
    contradiction.
  - vm_compute. auto.
  - eexists. apply compile_graph_raises.
  - intros w. eexists. apply getgraph_raises.
  - eexists. apply create_raises.
  - eexists. apply create_and_run_raises.
  - rewrite create_and_run_raises. reflexivity.
  - intros st. rewrite create_and_run_raises. discriminate.
Qed.

Ltac case_model :=
  repeat match goal with
         | |- context [if ?b then _ else _] => destruct b
         | |- context [match or_empty ?x with _ => _ end] =>
             destruct (or_empty x)
         | |- context [match ?m ?k ?q with inl _ => _ | inr _ => _ end] =>
             destruct (m k q)
         end.

(** C3, the code at the failing input.  With agents that raise [e], the
    baseline stage raises [e]: it returns no update.  So does every stage
    that calls an agent, once its guard lets it make the call; a method
    that returns an update has called no agent.  No method of the workflow
    has a handler for an agent's exception, and none ever returns an entry
    for [error_message].  Creating the workflow raises as well, so that a
    caller who starts a session receives an exception and no state. *)
Theorem agent_failure_propagates (e : exn) (clock : nat -> N)
    (model : nat -> pystr -> exn + option pystr) (nd : N -> bool)
    (st : TeachingState) (log : list Event) :
  let env := agents_raising e clock model in
  _evaluate_baseline_node env st log
  = (inl e,
     (log ++ [Invoke (socratic_evaluate_baseline (or_empty (question_text st))
                        (tenant_id st) (initial_understanding st))])%list) /\
  (forall name f,
      In (name, f) (node_methods env) ->
      In name ["evaluate_baseline"; "retrieve_knowledge";
               "generate_explanation"; "create_comprehension_check";
               "adaptive_followup"; "progress_entry"; "review_entry";
               "assessment_entry"] ->
      fst (f st log) = inl e) /\
  (skip_validation st = false -> nonempty (explanation st) = true ->
   fst (_validate_content_node env st log) = inl e) /\
  (skip_mnemonic st = false ->
   is_fully_understood (assessment_result st) = false ->
   fst (_generate_mnemonic_node env st log) = inl e) /\
  (nonempty (learner_response st) = true ->
   fst (_assess_understanding_node env st log) = inl e) /\
  (is_fully_understood (assessment_result st) = true ->
   fst (_update_progress_node env st log) = inl e) /\
  (forall name f,
      In (name, f) (node_methods env) ->
      match f st log with
      | (inl e', _) => e' = e
      | (inr update, log') =>
          leaves "error_message" update /\
          error_message (merge st update) = error_message st /\
          Forall (fun i => i = datetime_now \/ exists q, i = llm_invoke q)
                 (invocations (drop (length log) log'))
      end) /\
  (forall env' name f st' log0 update log',
      In (name, f) (node_methods env') ->
      f st' log0 = (inr update, log') ->
      leaves "error_message" update /\
      error_message (merge st' update) = error_message st') /\
  (exists e', create_teaching_workflow env nd = inl e') /\
  (forall fuel learner goal tenant q,
      exists e',
        create_and_run env nd fuel learner goal tenant q [] = (inl e', [])).
Proof.
  cbv zeta.
  split; [reflexivity|].
  split; [|split; [|split; [|split; [|split; [|split; [|split; [|split]]]]]]].
  - intros name f Hin Hname.
    each_method Hin; try reflexivity; exfalso; cbn [In] in Hname;
      repeat (destruct Hname as [Hname|Hname]; [discriminate Hname|]);
      contradiction.
  - intros H1 H2. unfold _validate_content_node. rewrite H1, H2. reflexivity.
  - intros H1 H2. unfold _generate_mnemonic_node. rewrite H1, H2. reflexivity.
  - intros H. unfold _assess_understanding_node. rewrite H. reflexivity.
  - intros H. unfold _update_progress_node. rewrite H. reflexivity.
  - intros name f Hin.
    each_method Hin; unfold_methods;
      cbn [agents_raising env_agent env_llm env_now]; case_model;
      try reflexivity;
      (split; [unfold leaves; repeat constructor; discriminate|]);
      (split; [destruct st; reflexivity|]);
      rewrite ?drop_app_length, ?drop_all; cbn;
      repeat (apply List.Forall_cons;
              [first [left; reflexivity | right; eexists; reflexivity]|]);
      apply List.Forall_nil.
  - intros env' name f st' log0 update log' Hin E.
    destruct (method_leaves env' name f st' log0 update log' Hin E)
      as (_ & _ & H3 & _).
    auto using merge_leaves_error_message.
  - eexists. apply create_raises.
  - intros fuel learner goal tenant q. eexists. apply create_and_run_raises.
Qed.




End WorkflowFacts.

(* --------------------------------------------------------------------- *)
(** ** The reasoning-action cycle *)
(* --------------------------------------------------------------------- *)

Module ReactFacts.

Import ReactCycle Fixtures.

Local Open Scope string_scope.

Lemma messages_set_messages (v : list Message) (s : KnowledgeAssessorState) :
  messages (set_messages v s) = v.
Proof. destruct s; reflexivity. Qed.

Lemma messages_set_next_step (v : option string) (s : KnowledgeAssessorState) :
  messages (set_next_step v s) = messages s.
Proof. destruct s; reflexivity. Qed.

Lemma next_step_set_next_step (v : option string) (s : KnowledgeAssessorState) :
  next_step (set_next_step v s) = v.
Proof. destruct s; reflexivity. Qed.

Lemma tc_id_inject (st : KnowledgeAssessorState) (call : ToolCall) :
  tc_id (inject_args st call) = tc_id call.
Proof. reflexivity. Qed.

Lemma tc_name_inject (st : KnowledgeAssessorState) (call : ToolCall) :
  tc_name (inject_args st call) = tc_name call.
Proof. reflexivity. Qed.

(** A call whose tool raises is answered by a message that carries the
    error text. *)
Lemma execute_failing_call (tools : list (string * Tool)) (call : ToolCall)
    (tool : Tool) (e : exn) :
  tool_executor tools !! tc_name call = Some tool ->
  tool (tc_args call) = inl e ->
  execute_tool_call tools call
  = ToolMessage (Text ("工具执行错误: " ++ exn_str e)) (tc_id call).
Proof.
  intros Hreg Hraise. unfold execute_tool_call, ToolExecutor_invoke.
  cbv zeta. unfold Tool in *. rewrite Hreg, Hraise. reflexivity.
Qed.

(** A call to a name that is not registered is answered the same way. *)
Lemma execute_unknown_call (tools : list (string * Tool)) (call : ToolCall) :
  tool_executor tools !! tc_name call = None ->
  execute_tool_call tools call
  = ToolMessage (Text ("工具执行错误: " ++ "Unknown tool: " ++ tc_name call))
      (tc_id call).
Proof.
  intros Hreg. unfold execute_tool_call, ToolExecutor_invoke.
  cbv zeta. unfold Tool in *. rewrite Hreg. reflexivity.
Qed.

(** The tools node on a history that ends with a request for tools: one
    message per call is appended, and the model is asked again. *)
Lemma tool_node_appends (tools : list (string * Tool))
    (st : KnowledgeAssessorState) (before : list Message) (text : string)
    (calls : list ToolCall) :
  calls <> [] ->
  messages st = (before ++ [AIMessage text calls])%list ->
  messages (tool_node tools st)
  = ((before ++ [AIMessage text (List.map (inject_args st) calls)])
     ++ List.map (fun tc => execute_tool_call tools (inject_args st tc))
          calls)%list /\
  next_step (tool_node tools st) = Some "agent".
Proof.
  intros Hne Hm. unfold tool_node. rewrite Hm, last_snoc.
  cbn [tool_calls_of].
  destruct calls as [|c cs]; [contradiction|].
  rewrite next_step_set_next_step, messages_set_next_step,
    messages_set_messages.
  split; [|reflexivity].
  unfold with_injected. rewrite rev_app_distr. cbn [rev app].
  rewrite rev_involutive. reflexivity.
Qed.

(** When the model answers without asking for a tool, the cycle ends. *)
Lemma cycle_ends_on_plain_answer
    (llm : list Message -> exn + string * list ToolCall)
    (tools : list (string * Tool)) (sys : string -> string)
    (info : KnowledgeAssessorState -> string) (fuel : nat)
    (st : KnowledgeAssessorState) (reply : string) :
  messages st <> [] ->
  llm (messages st) = inr (reply, []) ->
  cycle llm tools sys info (S fuel) st
  = inr (Finished
           (extract_result
              (set_messages (messages st ++ [AIMessage reply []])%list st))).
Proof.
  intros Hne Hllm. cbn [cycle]. unfold agent_node.
  destruct (messages st) as [|m ms] eqn:E; [contradiction|].
  rewrite Hllm. unfold should_continue.
  rewrite messages_set_messages, last_snoc. reflexivity.
Qed.

(** C9.  Let the history end with a request of the model for tool calls,
    one of which names a registered tool that raises on the arguments the
    node passes.  Then the tools node returns a state (nothing is raised):
    it has appended one message per requested call, the message for the
    failing call holds the text of the error as its observation under the
    id of the call, and the next step is the model again.  If the model
    then answers without a tool call, the cycle ends with a result. *)
Theorem tool_failure_is_observed
    (llm : list Message -> exn + string * list ToolCall)
    (tools : list (string * Tool)) (sys : string -> string)
    (info : KnowledgeAssessorState -> string) (fuel : nat)
    (st : KnowledgeAssessorState) (before : list Message) (text : string)
    (pre post : list ToolCall) (call : ToolCall) (tool : Tool) (e : exn) :
  messages st = (before ++ [AIMessage text (pre ++ call :: post)])%list ->
  tool_executor tools !! tc_name call = Some tool ->
  tool (tc_args (inject_args st call)) = inl e ->
  let st' := tool_node tools st in
  length (messages st')
  = (length (messages st) + length (pre ++ call :: post))%nat /\
  messages st' !! (length (messages st) + length pre)%nat
  = Some (ToolMessage (Text ("工具执行错误: " ++ exn_str e)) (tc_id call)) /\
  next_step st' = Some "agent" /\
  (forall reply,
      llm (messages st') = inr (reply, []) ->
      cycle llm tools sys info (S fuel) st'
      = inr (Finished
               (extract_result
                  (set_messages (messages st' ++ [AIMessage reply []])%list
                     st')))).
Proof.
  intros Hm Hreg Hraise. cbv zeta.
  assert (Hne : (pre ++ call :: post)%list <> [])
    by (destruct pre; discriminate).
  destruct (tool_node_appends tools st before text _ Hne Hm) as [Hmsgs Hnext].
  split; [|split; [|split]].
  - rewrite Hmsgs, Hm.
    rewrite !length_app, !length_map, !length_app. cbn [length]. lia.
  - rewrite Hmsgs, Hm.
    rewrite lookup_app_r; [|rewrite !length_app; cbn [length]; lia].
    replace (length (before ++ [AIMessage text (pre ++ call :: post)])
             + length pre
             - length (before
                       ++ [AIMessage text
                             (List.map (inject_args st) (pre ++ call :: post))]))%nat
      with (length pre) by (rewrite !length_app; cbn [length]; lia).
    rewrite map_app. cbn [List.map].
    rewrite lookup_app_r; [|rewrite length_map; lia].
    rewrite length_map, Nat.sub_diag. cbn [lookup list_lookup].
    f_equal. rewrite <- (tc_id_inject st call).
    apply (execute_failing_call tools (inject_args st call) tool e);
      [rewrite tc_name_inject; exact Hreg|exact Hraise].
  - exact Hnext.
  - intros reply Hllm.
    apply cycle_ends_on_plain_answer; [|exact Hllm].
    rewrite Hmsgs. intros H. apply app_eq_nil in H as [H _].
    apply app_eq_nil in H as [_ H]. discriminate H.
Qed.

(** The extraction tool of the example raises "rate limit exceeded": the
    observation is appended under the id of the call, and the run of the
    whole agent (two answers of the model) ends with a result instead of an
    exception. *)
Lemma tool_failure_is_observed_witness :
  messages assessor_asked
  = ([HumanMessage "system prompt"; HumanMessage "task"]
     ++ [AIMessage "" ([] ++ extract_call :: [])])%list /\
  messages (tool_node assessor_tools assessor_asked) !! 3%nat
  = Some (ToolMessage (Text "工具执行错误: rate limit exceeded") "call_1") /\
  next_step (tool_node assessor_tools assessor_asked) = Some "agent" /\
  (exists final,
      cycle scripted_model assessor_tools (fun _ => "system prompt")
        (fun _ => "task") 1 (tool_node assessor_tools assessor_asked)
      = inr (Finished final)) /\
  (exists final,
      invoke_knowledge_assessor scripted_model assessor_tools
        (fun _ => "system prompt") (fun _ => "task") 2
        "assess_understanding" "What is a derivative?"
        "A derivative measures rate of change" "a derivative is a slope"
        [] [] None 0 3
      = inr (Finished final) /\
      length (messages final) = 5%nat /\ error final = None).
Proof.
  destruct (tool_failure_is_observed scripted_model assessor_tools
              (fun _ => "system prompt") (fun _ => "task") 0 assessor_asked
              [HumanMessage "system prompt"; HumanMessage "task"] ""
              [] [] extract_call
              (fun _ => inl (Exn "rate limit exceeded"))
              (Exn "rate limit exceeded") eq_refl eq_refl eq_refl)
    as (Hlen & Hobs & Hnext & Hend).
  split; [reflexivity|].
  split; [exact Hobs|].
  split; [exact Hnext|].
  split.
  - eexists. apply Hend. reflexivity.
  - eexists. split; [vm_compute; reflexivity|].
    split; reflexivity.
Defined.

End ReactFacts.

(* --------------------------------------------------------------------- *)
(** ** The assessor tools: confidence, monotonicity and bounds *)
(* --------------------------------------------------------------------- *)

Module AssessorExtras.

Import AssessorTools AssessorCalibration.

(** X1.  [assess_understanding_level]: the confidence level it reports is
    tied to the result.  High is reported only with fully understood (at a
    coverage of at least 0.9), low only with not understood; medium_high
    comes with fully understood below 0.9 or with partially understood
    when the number of misunderstandings is not one; medium comes with
    partially understood and one misunderstanding or with not understood
    and fewer than two. *)
Theorem confidence_tracks_result (kpu mis expected : list pystr) (resp : pystr) :
  let a := assess_understanding_level kpu mis expected resp in
  match confidence_level a with
  | high =>
      assessment_result a = fully_understood /\
      Qle_bool (9 # 10) (coverage kpu expected) = true /\
      (length mis < 2)%nat
  | medium_high =>
      assessment_result a = fully_understood /\
      Qle_bool (9 # 10) (coverage kpu expected) = false /\
      (length mis < 2)%nat
      \/ assessment_result a = partially_understood /\ (length mis <> 1)%nat
  | medium =>
      assessment_result a = partially_understood /\ (length mis = 1)%nat
      \/ assessment_result a = not_understood /\ (length mis < 2)%nat
  | low => assessment_result a = not_understood
  end.
Proof.
  cbv zeta. unfold assess_understanding_level.
  destruct (length (strip resp) <? 10)%nat; [reflexivity|].
  destruct (any_in negative_keywords resp); [reflexivity|].
  cbv zeta.
  destruct (Nat.leb_spec 2 (length mis)) as [Hs|Hs];
  destruct (Nat.eqb_spec (length mis) 1) as [Hm|Hm];
  destruct (Qle_bool (8 # 10) (coverage kpu expected)) eqn:E8;
  destruct (Qle_bool (9 # 10) (coverage kpu expected)) eqn:E9;
  destruct (Qle_bool (5 # 10) (coverage kpu expected)) eqn:E5;
  destruct (Qle_bool (3 # 10) (coverage kpu expected)) eqn:E3;
  cbn; try lia; try (repeat split; auto; lia);
  try (left; repeat split; auto; lia); try (right; repeat split; auto; lia).
Qed.

(** The result as a function of the coverage and of whether there are two
    misunderstandings or more, for a response that passes the first two
    checks. *)
Lemma result_by_coverage (kpu mis expected : list pystr) (resp : pystr) :
  (length (strip resp) <? 10)%nat = false ->
  any_in negative_keywords resp = false ->
  assessment_result (assess_understanding_level kpu mis expected resp)
  = let c := coverage kpu expected in
    let serious := (2 <=? length mis)%nat in
    if Qle_bool (8 # 10) c && negb serious then fully_understood
    else if Qle_bool (5 # 10) c || Qle_bool (3 # 10) c && negb serious
    then partially_understood
    else not_understood.
Proof.
  intros H1 H2. unfold assess_understanding_level. rewrite H1, H2. cbv zeta.
  destruct (Qle_bool (8 # 10) _ && negb _); [reflexivity|].
  destruct (Qle_bool (5 # 10) _ || _); reflexivity.
Qed.

(** X2.  [assess_understanding_level]: with the same understood points,
    expected points and response, a longer list of misunderstandings never
    gives a better result. *)
Theorem more_misunderstandings_never_help
    (kpu mis1 mis2 expected : list pystr) (resp : pystr) :
  (length mis1 <= length mis2)%nat ->
  (understanding_rank
     (assessment_result (assess_understanding_level kpu mis2 expected resp))
   <= understanding_rank
        (assessment_result (assess_understanding_level kpu mis1 expected resp)))%nat.
Proof.
  intros H.
  destruct (length (strip resp) <? 10)%nat eqn:H1;
    [unfold assess_understanding_level; rewrite H1; cbn; lia|].
  destruct (any_in negative_keywords resp) eqn:H2;
    [unfold assess_understanding_level; rewrite H1, H2; cbn; lia|].
  rewrite !result_by_coverage by assumption. cbv zeta.
  destruct (Nat.leb_spec 2 (length mis1)), (Nat.leb_spec 2 (length mis2));
    try lia;
    destruct (Qle_bool (8 # 10) _), (Qle_bool (5 # 10) _), (Qle_bool (3 # 10) _);
    cbn; lia.
Qed.

Lemma more_misunderstandings_never_help_witness :
  (understanding_rank
     (assessment_result
        (assess_understanding_level Fixtures.four_points
           Fixtures.two_misunderstandings Fixtures.five_points
           Fixtures.long_response))
   <= understanding_rank
        (assessment_result
           (assess_understanding_level Fixtures.four_points []
              Fixtures.five_points Fixtures.long_response)))%nat.
Proof.
  apply (more_misunderstandings_never_help Fixtures.four_points []
           Fixtures.two_misunderstandings Fixtures.five_points
           Fixtures.long_response).
  cbn. lia.
Defined.

(** X3.  [assess_understanding_level]: when the list of understood key
    points is empty the result is not understood, whatever the response,
    the expected points and the misunderstandings are. *)
Theorem no_understood_points_not_understood
    (mis expected : list pystr) (resp : pystr) :
  assessment_result (assess_understanding_level [] mis expected resp)
  = not_understood.
Proof.
  unfold assess_understanding_level.
  destruct (length (strip resp) <? 10)%nat; [reflexivity|].
  destruct (any_in negative_keywords resp); [reflexivity|].
  cbv zeta.
  assert (E : forall a : positive,
             Qle_bool (Z.pos a # 10) (coverage [] expected) = false).
  { intros a. unfold coverage. destruct expected as [|e expected]; reflexivity. }
  rewrite !E. reflexivity.
Qed.

Lemma covered_le (kpu expected : list pystr) :
  (covered kpu expected <= length kpu)%nat.
Proof. unfold covered. apply filter_length_le. Qed.

(** X5.  [assess_understanding_level], step 3: the coverage is never
    negative, and it is at most 1 when no key points are expected or when
    there are no more understood points than expected ones. *)
Theorem coverage_bounds (kpu expected : list pystr) :
  expected = [] \/ (length kpu <= length expected)%nat ->
  (0 <= coverage kpu expected)%Q /\ (coverage kpu expected <= 1)%Q.
Proof.
  intros H. unfold coverage.
  destruct expected as [|e expected].
  - split; [|apply Q.le_min_r].
    apply Q.min_glb; [|discriminate].
    unfold Qle; cbn. lia.
  - destruct H as [H|H]; [discriminate|].
    pose proof (covered_le kpu (e :: expected)) as Hc.
    unfold Qle; cbn [Qnum Qden]. split; [lia|].
    rewrite Z.mul_1_r, Z.mul_1_l.
    cbn [length] in *. rewrite <- Pos.of_nat_succ, Zpos_P_of_succ_nat. lia.
Qed.

Lemma coverage_bounds_witness :
  (0 <= coverage Fixtures.four_points Fixtures.five_points)%Q /\
  (coverage Fixtures.four_points Fixtures.five_points <= 1)%Q.
Proof.
  apply (coverage_bounds Fixtures.four_points Fixtures.five_points).
  right. cbn. lia.
Defined.

Lemma contains_refl (s : pystr) : contains s s = true.
Proof.
  assert (H : starts_with s s = true).
  { induction s as [|c s IH]; [reflexivity|]. cbn. now rewrite N.eqb_refl. }
  destruct s; cbn in *; [reflexivity|]. now rewrite H.
Qed.

Lemma covered_repeat (p : pystr) (rest : list pystr) (n : nat) :
  covered (repeat p n) (p :: rest) = n.
Proof.
  unfold covered. induction n as [|n IH]; [reflexivity|].
  cbn [repeat List.filter].
  replace (existsb (fun e => contains e p) (p :: rest)) with true
    by (cbn; now rewrite contains_refl).
  cbn [length]. now rewrite IH.
Qed.

(** X6.  [assess_understanding_level], step 3: the coverage counts the
    understood points that hold an expected point, not the expected points
    that are covered.  An understood list that repeats one expected point
    [n] times counts [n] times: when [n] is at least four fifths of the
    number of expected points the result is fully understood, although a
    single expected point is covered. *)
Theorem repeated_point_counts_each_time
    (p : pystr) (rest mis : list pystr) (n : nat) (resp : pystr) :
  (10 <= length (strip resp))%nat ->
  any_in negative_keywords resp = false ->
  (length mis < 2)%nat ->
  (4 * S (length rest) <= 5 * n)%nat ->
  assessment_result
    (assess_understanding_level (repeat p n) mis (p :: rest) resp)
  = fully_understood.
Proof.
  intros Hlen Hneg Hmis Hn.
  rewrite result_by_coverage; [|now apply Nat.ltb_ge|exact Hneg]. cbv zeta.
  replace (2 <=? length mis)%nat with false by (symmetry; apply Nat.leb_gt; lia).
  unfold coverage. rewrite covered_repeat. cbn [length].
  replace (Qle_bool (8 # 10) (Z.of_nat n # Pos.of_nat (S (length rest))))
    with true; [reflexivity|].
  symmetry. unfold Qle_bool. cbn [Qnum Qden]. apply Z.leb_le.
  rewrite <- Pos.of_nat_succ, Zpos_P_of_succ_nat. lia.
Qed.

Lemma repeated_point_counts_each_time_witness :
  assessment_result
    (assess_understanding_level (repeat (of_ascii "alpha") 4) []
       Fixtures.five_points Fixtures.long_response)
  = fully_understood.
Proof.
  apply (repeated_point_counts_each_time (of_ascii "alpha")
           [of_ascii "beta"; of_ascii "gamma"; of_ascii "delta"; of_ascii "omega"]
           [] 4 Fixtures.long_response).
  - vm_compute. lia.
  - reflexivity.
  - cbn. lia.
  - cbn. lia.
Defined.


(** X7.  [calibrate_confidence_level]: for a given result the confidence
    never rises with the number of retries (counted from zero). *)
Theorem calibrated_confidence_monotone (r : option Understanding) (n m : Z) :
  (0 <= n)%Z -> (n <= m)%Z ->
  (confidence_rank (calibrate_confidence_level r m)
   <= confidence_rank (calibrate_confidence_level r n))%nat.
Proof.
  intros H0 H. unfold calibrate_confidence_level.
  destruct r as [[]|];
    repeat match goal with
           | |- context [(?a =? ?b)%Z] => destruct (Z.eqb_spec a b)
           | |- context [(?a <=? ?b)%Z] => destruct (Z.leb_spec a b)
           end; cbn; lia.
Qed.

Lemma calibrated_confidence_monotone_witness :
  (confidence_rank (calibrate_confidence_level (Some fully_understood) 2)
   <= confidence_rank (calibrate_confidence_level (Some fully_understood) 0))%nat.
Proof.
  apply (calibrated_confidence_monotone (Some fully_understood) 0 2); lia.
Defined.

End AssessorExtras.
